(** * NPI lookup: the batch handler and the record normalizer

    A shallow embedding of [pages/api/fetchNpi.ts] (the hardened handler):
    [handler], [fetchNpiData] and [processNpiResult], together with the few
    JavaScript built-ins they rely on.

    Conventions of the model.
    - A JavaScript string is a [string]; each [ascii] stands for the UTF-16
      code unit of the same number, so the model covers the strings whose
      code units lie in 0..255.  [String.length] is then JavaScript's
      [.length].
    - An optional property ([name_prefix?: string]) is an [option]; a
      property read that JavaScript would answer with [undefined] is [None].
    - [a || b] on optional strings is [a] when [a] is a non-empty string and
      [b] otherwise; on optional objects it is [a] when [a] is defined.
    - Exceptions are explicit: a computation ends in [Normal v] or
      [Throw e].  Outbound requests are recorded in a log, in issue order.
    - [console.error] only writes to the server log and is left out. *)

From Stdlib Require Import ZArith Ascii String List Lia.
From stdpp Require Import base list strings pretty gmap.

Local Open Scope string_scope.
Local Open Scope list_scope.

(** ** JavaScript strings *)

Module Js.

(** White space and line terminators removed by [String.prototype.trim],
    restricted to code units below 256: TAB, LF, VT, FF, CR, SP, NBSP. *)
Definition isWhiteSpace (c : ascii) : bool :=
  let n := nat_of_ascii c in
  ((9 <=? n)%nat && (n <=? 13)%nat) || (n =? 32)%nat || (n =? 160)%nat.

(** The character class [\d] (without the [u] flag): the digits 0 to 9. *)
Definition isDigit (c : ascii) : bool :=
  let n := nat_of_ascii c in (48 <=? n)%nat && (n <=? 57)%nat.

Fixpoint trimStart (s : string) : string :=
  match s with
  | EmptyString => EmptyString
  | String c s' => if isWhiteSpace c then trimStart s' else s
  end.

Fixpoint trimEnd (s : string) : string :=
  match s with
  | EmptyString => EmptyString
  | String c s' =>
      match trimEnd s' with
      | EmptyString => if isWhiteSpace c then EmptyString else String c EmptyString
      | t => String c t
      end
  end.

(** [s.trim()] *)
Definition trim (s : string) : string := trimEnd (trimStart s).

(** [s.split(sep)] for a one-character separator: one piece more than
    there are separators; the empty string splits into one empty piece. *)
Fixpoint split (sep : ascii) (s : string) : list string :=
  match s with
  | EmptyString => [EmptyString]
  | String c s' =>
      if Ascii.eqb c sep then EmptyString :: split sep s'
      else match split sep s' with
           | piece :: rest => String c piece :: rest
           | [] => [String c EmptyString]
           end
  end.

(** [parts.join(sep)] *)
Fixpoint join (sep : string) (parts : list string) : string :=
  match parts with
  | [] => EmptyString
  | [p] => p
  | p :: rest => p +:+ sep +:+ join sep rest
  end.

Fixpoint all (p : ascii -> bool) (s : string) : bool :=
  match s with
  | EmptyString => true
  | String c s' => p c && all p s'
  end.

(** [/^\d+$/.test(s)]: the whole string is one or more digits. *)
Definition test_digits (s : string) : bool :=
  match s with
  | EmptyString => false
  | _ => all isDigit s
  end.

(** Truthiness of an optional string: defined and not empty. *)
Definition truthy (v : option string) : bool :=
  match v with
  | Some s => negb (String.eqb s "")
  | None => false
  end.

(** [v || d] for an optional string [v] and a string [d]. *)
Definition orStr (v : option string) (d : string) : string :=
  match v with
  | Some s => if String.eqb s "" then d else s
  | None => d
  end.

(** [a || b] for optional objects (an object is always truthy). *)
Definition orObj {A : Type} (a b : option A) : option A :=
  match a with
  | Some x => Some x
  | None => b
  end.

(** [l.find(p)] *)
Definition find {A : Type} (p : A -> bool) (l : list A) : option A :=
  List.find p l.

(** Completion of a computation: a value or a thrown error. *)
Inductive Error : Set :=
  | AbortError            (* DOMException named 'AbortError' *)
  | TypeError
  | SyntaxError
  | RangeError
  | PlainError (message : string).

Inductive Completion (A : Type) : Type :=
  | Normal (a : A)
  | Throw (e : Error).
Arguments Normal {A} a.
Arguments Throw {A} e.

(** [err instanceof Error && err.name === 'AbortError'] *)
Definition isAbortError (e : Error) : bool :=
  match e with
  | AbortError => true
  | _ => false
  end.

End Js.

(** ** Validation of the query parameter (handler, lines 82-86) *)

Definition MAX_NPIS : nat := 10.
Definition API_TIMEOUT : nat := 5000.

(** [n => n.length === 10 && /^\d+$/.test(n)] *)
Definition isValidNpi (n : string) : bool :=
  (String.length n =? 10)%nat && Js.test_digits n.

(** [npiParam.split(',').map(n => n.trim()).filter(...).slice(0, MAX_NPIS)] *)
Definition npiList (npiParam : string) : list string :=
  take MAX_NPIS (List.filter isValidNpi (map Js.trim (Js.split "," npiParam))).


(** ** The data model (interfaces, lines 6-58) *)

Module Basic.
Record t : Type := mk {
  name_prefix : option string;
  first_name : option string;
  middle_name : option string;
  last_name : option string;
  organization_name : option string;
  sex : option string;
  last_updated : option string
}.
(** The object literal [{}]: every property reads as [undefined]. *)
Definition empty : t := mk None None None None None None None.
End Basic.

Module Taxonomy.
Record t : Type := mk {
  desc : option string;
  primary : option bool;
  license : option string;
  state : option string
}.
Definition empty : t := mk None None None None.
End Taxonomy.

Module Address.
(** [address_purpose] is declared as a plain string, but the placeholder
    [{}] used when there is no address has none; hence the option. *)
Record t : Type := mk {
  address_purpose : option string;
  address_1 : option string;
  address_2 : option string;
  city : option string;
  state : option string;
  postal_code : option string;
  telephone_number : option string;
  fax_number : option string
}.
Definition empty : t := mk None None None None None None None None.
End Address.

(** [NpiResultRaw].  The code guards [basic], [taxonomies] and [addresses]
    with [|| {}] and [|| []], so they may be missing from the payload. *)
Module Raw.
Record t : Type := mk {
  enumeration_type : string;
  basic : option Basic.t;
  taxonomies : option (list Taxonomy.t);
  addresses : option (list Address.t)
}.
End Raw.

(** [NpiResultProcessed].  The identifier is always there; an error record
    [{ npi, error }] leaves the ten display fields undefined. *)
Module Processed.
Record t : Type := mk {
  npi : string;
  name : option string;
  entityType : option string;
  sex : option string;
  specialty : option string;
  license : option string;
  licenseState : option string;
  phone : option string;
  fax : option string;
  address : option string;
  lastUpdated : option string;
  error : option string
}.

(** [{ npi, error: msg } as NpiResultProcessed] *)
Definition failure (npi : string) (msg : string) : t :=
  mk npi None None None None None None None None None None (Some msg).

End Processed.

(** ** The record normalizer (processNpiResult, lines 146-228) *)

(** Provider name, lines 150-160. *)
Definition providerName (isIndividual : bool) (basic : Basic.t) : string :=
  if isIndividual then
    if Js.truthy (Basic.name_prefix basic) || Js.truthy (Basic.first_name basic)
       || Js.truthy (Basic.last_name basic)
    then Js.trim (Js.orStr (Basic.name_prefix basic) "" +:+ " "
                  +:+ Js.orStr (Basic.first_name basic) "" +:+ " "
                  +:+ (if Js.truthy (Basic.middle_name basic)
                       then Js.orStr (Basic.middle_name basic) "" +:+ " " else "")
                  +:+ Js.orStr (Basic.last_name basic) "")
    else "N/A"
  else Js.orStr (Basic.organization_name basic) "N/A".

(** Sex value, lines 162-166. *)
Definition sexValue (isIndividual : bool) (basic : Basic.t) : string :=
  if isIndividual && Js.truthy (Basic.sex basic) then
    let s := Js.orStr (Basic.sex basic) "" in
    if String.eqb s "F" then "Female"
    else if String.eqb s "M" then "Male"
    else s
  else "N/A".

(** [(t) => t.primary === true] *)
Definition isPrimary (t : Taxonomy.t) : bool :=
  match Taxonomy.primary t with
  | Some true => true
  | _ => false
  end.

(** [(a) => a.address_purpose === purpose] *)
Definition hasPurpose (purpose : string) (a : Address.t) : bool :=
  match Address.address_purpose a with
  | Some p => String.eqb p purpose
  | None => false
  end.

(** Lines 169-170. *)
Definition selectTaxonomy (taxonomies : list Taxonomy.t) : Taxonomy.t :=
  default Taxonomy.empty
    (Js.orObj (Js.find isPrimary taxonomies) (taxonomies !! 0%nat)).

(** Lines 172-175. *)
Definition selectAddress (addresses : list Address.t) : Address.t :=
  default Address.empty
    (Js.orObj (Js.find (hasPurpose "LOCATION") addresses)
       (Js.orObj (Js.find (hasPurpose "MAILING") addresses)
          (addresses !! 0%nat))).

(** [if (v) parts.push(v)] *)
Definition pushIf (parts : list string) (v : option string) : list string :=
  if Js.truthy v then parts ++ [Js.orStr v ""] else parts.

(** Formatted address, lines 193-213. *)
Definition formattedAddress (primaryAddress : Address.t) : string :=
  if Js.truthy (Address.address_1 primaryAddress) then
    let parts := [] in
    let parts := pushIf parts (Address.address_1 primaryAddress) in
    let parts := pushIf parts (Address.address_2 primaryAddress) in
    let parts := pushIf parts (Address.city primaryAddress) in
    let parts :=
      if Js.truthy (Address.state primaryAddress)
         && Js.truthy (Address.postal_code primaryAddress)
      then parts ++ [Js.orStr (Address.state primaryAddress) "" +:+ " "
                     +:+ Js.orStr (Address.postal_code primaryAddress) ""]
      else pushIf (pushIf parts (Address.state primaryAddress))
                  (Address.postal_code primaryAddress) in
    if (0 <? length parts)%nat then Js.join ", " parts else "N/A"
  else "N/A".

Section Normalizer.

(** The engine's date built-ins.  [Date_parse s] is the time value of
    [new Date(s)], [None] standing for NaN (an invalid date); which
    strings parse is left to the engine.  [formatLong t] is what
    [Intl] produces for a valid time value under the options
    [{ year: 'numeric', month: 'long', day: 'numeric' }] and the
    locale en-US. *)
Variable Date_parse : string -> option Z.
Variable formatLong : Z -> string.

(** [new Date(s)]: never throws for a string argument. *)
Definition newDate (s : string) : Js.Completion (option Z) :=
  Js.Normal (Date_parse s).

(** [d.toLocaleDateString('en-US', options)]: the first step of the
    built-in answers "Invalid Date" for a NaN time value; with a
    well-formed locale tag and options it does not throw. *)
Definition toLocaleDateString (d : option Z) : Js.Completion string :=
  match d with
  | None => Js.Normal "Invalid Date"
  | Some t => Js.Normal (formatLong t)
  end.

(** Last-updated date, lines 177-190: the [try] block, then the
    [catch] clause on a thrown error. *)
Definition lastUpdatedValue (basic : Basic.t) : string :=
  let attempt :=
    if Js.truthy (Basic.last_updated basic) then
      match newDate (Js.orStr (Basic.last_updated basic) "") with
      | Js.Normal d => toLocaleDateString d
      | Js.Throw e => Js.Throw e
      end
    else Js.Normal "N/A" in
  match attempt with
  | Js.Normal v => v
  | Js.Throw _ => Js.orStr (Basic.last_updated basic) "N/A"
  end.

Definition processNpiResult (npi : string) (result : Raw.t) : Processed.t :=
  let isIndividual := String.eqb (Raw.enumeration_type result) "NPI-1" in
  let basic := default Basic.empty (Raw.basic result) in
  let name := providerName isIndividual basic in
  let sexValue := sexValue isIndividual basic in
  let taxonomies := default [] (Raw.taxonomies result) in
  let taxonomy := selectTaxonomy taxonomies in
  let addresses := default [] (Raw.addresses result) in
  let primaryAddress := selectAddress addresses in
  let lastUpdated := lastUpdatedValue basic in
  let formattedAddress := formattedAddress primaryAddress in
  {| Processed.npi := npi;
     Processed.name := Some name;
     Processed.entityType :=
       Some (if isIndividual then "Individual" else "Organization");
     Processed.sex := Some sexValue;
     Processed.specialty := Some (Js.orStr (Taxonomy.desc taxonomy) "N/A");
     Processed.license := Some (Js.orStr (Taxonomy.license taxonomy) "N/A");
     Processed.licenseState := Some (Js.orStr (Taxonomy.state taxonomy) "N/A");
     Processed.phone :=
       Some (Js.orStr (Address.telephone_number primaryAddress) "N/A");
     Processed.fax := Some (Js.orStr (Address.fax_number primaryAddress) "N/A");
     Processed.address := Some formattedAddress;
     Processed.lastUpdated := Some lastUpdated;
     Processed.error := None |}.

End Normalizer.

(** ** Effects: outbound requests and exceptions *)

Module Eff.

(** A computation yields the URLs it requested, in issue order, and its
    completion. *)
Definition t (A : Type) : Type := (list string * Js.Completion A)%type.

Definition ret {A : Type} (a : A) : t A := ([], Js.Normal a).

Definition throw {A : Type} (e : Js.Error) : t A := ([], Js.Throw e).

Definition bind {A B : Type} (m : t A) (k : A -> t B) : t B :=
  match m with
  | (w, Js.Normal a) => let (w', r) := k a in (w ++ w', r)
  | (w, Js.Throw e) => (w, Js.Throw e)
  end.

(** [try { m } catch (err) { h err }] *)
Definition tryCatch {A : Type} (m : t A) (h : Js.Error -> t A) : t A :=
  match m with
  | (w, Js.Normal a) => (w, Js.Normal a)
  | (w, Js.Throw e) => let (w', r) := h e in (w ++ w', r)
  end.

End Eff.

Notation "'do' x <- m ; k" := (Eff.bind m (fun x => k))
  (at level 10, x name, m at level 100, k at level 200, only parsing).

(** ** The upstream registry as seen by one lookup *)

(** Body of a response. *)
Inductive Payload : Type :=
  | Malformed                                  (* not JSON *)
  | JsonNull                                   (* the JSON value [null] *)
  | Envelope (results : option (list Raw.t)).  (* [NpiApiResponse] *)

(** What happens to one [fetch] call.  The timer of [fetchNpiData]
    ([API_TIMEOUT] milliseconds) is folded into the outcome: [Aborted] is
    the case in which the timer fires before the response arrives, so that
    [controller.abort()] rejects the call with an [AbortError]. *)
Inductive FetchOutcome : Type :=
  | Aborted
  | NetworkFailure
  | Responded (status : nat) (payload : Payload).

Module HttpResponse.
Record t : Type := mk { status : nat; payload : Payload }.

(** [response.ok] *)
Definition ok (r : t) : bool := (200 <=? status r)%nat && (status r <=? 299)%nat.

(** [response.json()] *)
Definition json (r : t) : Eff.t Payload :=
  match payload r with
  | Malformed => Eff.throw Js.SyntaxError
  | p => Eff.ret p
  end.
End HttpResponse.

(** [fetch(url, { headers, signal })] against a network that answers the
    URL with a given outcome. *)
Definition fetch (network : string -> FetchOutcome) (url : string)
  : Eff.t HttpResponse.t :=
  ([url],
   match network url with
   | Aborted => Js.Throw Js.AbortError
   | NetworkFailure => Js.Throw Js.TypeError
   | Responded status payload => Js.Normal (HttpResponse.mk status payload)
   end).

(** [data.results?.[0]]: reading a property of [null] throws; a missing or
    empty [results] gives [undefined].  ([Malformed] does not get here:
    [json] has thrown.) *)
Definition firstResult (data : Payload) : Eff.t (option Raw.t) :=
  match data with
  | Malformed | JsonNull => Eff.throw Js.TypeError
  | Envelope None => Eff.ret None
  | Envelope (Some results) => Eff.ret (results !! 0%nat)
  end.

Definition registryUrl (npi : string) : string :=
  "https://npiregistry.cms.hhs.gov/api/?number=" +:+ npi +:+ "&version=2.1".

(** ** Promise.all *)

Module PromiseAll.
Section PromiseAll.
Context {A : Type}.

(** The aggregate keeps one slot per input promise and the first
    rejection seen. *)
Record State : Type := mkState {
  values : list (option A);
  rejection : option Js.Error
}.

Definition init (n : nat) : State := mkState (replicate n None) None.

(** Promise [i] settles. *)
Definition settle (promises : list (Js.Completion A)) (st : State) (i : nat)
  : State :=
  match promises !! i with
  | Some (Js.Normal v) => mkState (<[i := Some v]> (values st)) (rejection st)
  | Some (Js.Throw e) => mkState (values st) (Js.orObj (rejection st) (Some e))
  | None => st
  end.

(** [await Promise.all(promises)] when the promises settle in the order
    [order] (indices into [promises]): rejected with the first rejection,
    fulfilled with the slots in index order once every slot is filled,
    and pending ([None]) otherwise. *)
Definition all (promises : list (Js.Completion A)) (order : list nat)
  : option (Js.Completion (list A)) :=
  let st := foldl (settle promises) (init (length promises)) order in
  match rejection st with
  | Some e => Some (Js.Throw e)
  | None => Js.Normal <$> mapM id (values st)
  end.

End PromiseAll.
End PromiseAll.

(** ** The handler *)

Inductive QueryValue : Type :=
  | QMissing
  | QString (s : string)
  | QArray (l : list string).

Module Request.
Record t : Type := mk { method : string; query_npi : QueryValue }.
End Request.

(** [ApiResponse] *)
Module ApiResponse.
Record t : Type := mk {
  results : option (list Processed.t);
  error : option string
}.
Definition failure (msg : string) : t := mk None (Some msg).
Definition success (rs : list Processed.t) : t := mk (Some rs) None.
End ApiResponse.

Module Response.
Record t : Type := mk {
  headers : list (string * string);
  status : nat;
  json : ApiResponse.t
}.
End Response.

(** One run of the handler: the response sent (if the run gets that far)
    and the outbound requests issued. *)
Module Run.
Record t : Type := mk {
  response : option Response.t;
  outbound : list string
}.
End Run.

Definition corsHeaders : list (string * string) :=
  [("Access-Control-Allow-Origin", "*");
   ("Access-Control-Allow-Methods", "GET");
   ("Access-Control-Allow-Headers", "Content-Type")].

Section Dispatcher.

Variable Date_parse : string -> option Z.
Variable formatLong : Z -> string.

(** Lines 104-141. *)
Definition fetchNpiData (network : string -> FetchOutcome) (npi : string)
  : Eff.t Processed.t :=
  Eff.tryCatch
    (let url := registryUrl npi in
     do response <- fetch network url;
     if negb (HttpResponse.ok response) then
       Eff.throw (Js.PlainError
                    ("HTTP error! Status: " +:+ pretty (HttpResponse.status response)))
     else
       do data <- HttpResponse.json response;
       do result <- firstResult data;
       match result with
       | None => Eff.ret (Processed.failure npi "Not found")
       | Some result => Eff.ret (processNpiResult Date_parse formatLong npi result)
       end)
    (fun err =>
       Eff.ret (Processed.failure npi
                  (if Js.isAbortError err then "Request timed out"
                   else "Failed to retrieve provider data"))).

(** Lines 64-99.  [network i] answers the [i]-th lookup of the batch;
    [order] is the order in which the lookups settle. *)
Definition handler (req : Request.t) (network : nat -> string -> FetchOutcome)
    (order : list nat) : Run.t :=
  let respond status body :=
    Run.mk (Some (Response.mk corsHeaders status body)) [] in
  if negb (String.eqb (Request.method req) "GET") then
    respond 405%nat (ApiResponse.failure "Method not allowed")
  else
    match Request.query_npi req with
    | QString npiParam =>
        if String.eqb npiParam "" then
          respond 400%nat (ApiResponse.failure "Missing or invalid NPI parameter")
        else
          let npiList := npiList npiParam in
          if (length npiList =? 0)%nat then
            respond 400%nat (ApiResponse.failure "No valid NPI numbers provided")
          else
            let calls := imap (fun i npi => fetchNpiData (network i) npi) npiList in
            let sent := concat (fst <$> calls) in
            match PromiseAll.all (snd <$> calls) order with
            | Some (Js.Normal results) =>
                Run.mk (Some (Response.mk corsHeaders 200%nat
                                (ApiResponse.success results))) sent
            | Some (Js.Throw _) =>
                Run.mk (Some (Response.mk corsHeaders 500%nat
                                (ApiResponse.failure "Internal server error"))) sent
            | None => Run.mk None sent
            end
    | _ => respond 400%nat (ApiResponse.failure "Missing or invalid NPI parameter")
    end.

End Dispatcher.

(** ** A stand-in date engine for the examples

    The theorems quantify over the engine's date built-ins.  To run the
    model on examples, this module supplies a small stand-in, which is not
    a model of a real engine: it understands only the date-only form
    [YYYY-MM-DD] (read as UTC midnight, in milliseconds since the epoch; a
    day up to 31 is taken in any month and rolls over into the next one)
    and answers [None] on every other string, although a real engine
    parses many of them (date-times, "July 8, 2007", ...).  It renders
    dates for a server whose time zone is UTC.  The examples use it only
    on strings on which Node answers the same. *)

Module UtcEngine.

Definition msPerDay : Z := 86400000.

Definition digitValue (c : ascii) : option Z :=
  if Js.isDigit c then Some (Z.of_nat (nat_of_ascii c) - 48)%Z else None.

Fixpoint digitsValue (acc : Z) (s : string) : option Z :=
  match s with
  | EmptyString => Some acc
  | String c s' =>
      match digitValue c with
      | Some d => digitsValue (10 * acc + d)%Z s'
      | None => None
      end
  end.

(** Days since 1970-01-01 of a proleptic Gregorian date. *)
Definition daysFromCivil (y m d : Z) : Z :=
  let y' := (if m <=? 2 then y - 1 else y)%Z in
  let era := (y' / 400)%Z in
  let yoe := (y' - era * 400)%Z in
  let doy := ((153 * (if 2 <? m then m - 3 else m + 9) + 2) / 5 + d - 1)%Z in
  let doe := (yoe * 365 + yoe / 4 - yoe / 100 + doy)%Z in
  (era * 146097 + doe - 719468)%Z.

Definition civilFromDays (z : Z) : Z * Z * Z :=
  let z := (z + 719468)%Z in
  let era := (z / 146097)%Z in
  let doe := (z - era * 146097)%Z in
  let yoe := ((doe - doe / 1460 + doe / 36524 - doe / 146096) / 365)%Z in
  let doy := (doe - (365 * yoe + yoe / 4 - yoe / 100))%Z in
  let mp := ((5 * doy + 2) / 153)%Z in
  let d := (doy - (153 * mp + 2) / 5 + 1)%Z in
  let m := (if mp <? 10 then mp + 3 else mp - 9)%Z in
  let y := (yoe + era * 400 + (if m <=? 2 then 1 else 0))%Z in
  (y, m, d).

Definition Date_parse (s : string) : option Z :=
  if (String.length s =? 10)%nat
     && String.eqb (substring 4 1 s) "-" && String.eqb (substring 7 1 s) "-"
  then
    match digitsValue 0 (substring 0 4 s), digitsValue 0 (substring 5 2 s),
          digitsValue 0 (substring 8 2 s) with
    | Some y, Some m, Some d =>
        if ((1 <=? m) && (m <=? 12) && (1 <=? d) && (d <=? 31))%Z
        then Some ((daysFromCivil y m 1 + d - 1) * msPerDay)%Z
        else None
    | _, _, _ => None
    end
  else None.

Definition monthName (m : Z) : string :=
  nth (Z.to_nat (m - 1))
    ["January"; "February"; "March"; "April"; "May"; "June"; "July";
     "August"; "September"; "October"; "November"; "December"] "".

(** Years before the year 1 are printed by their number before the
    common era, without the era. *)
Definition formatLong (t : Z) : string :=
  let '(y, m, d) := civilFromDays (t / msPerDay) in
  monthName m +:+ " " +:+ pretty d +:+ ", "
  +:+ pretty (if y <=? 0 then 1 - y else y)%Z.

Definition processNpiResult := processNpiResult Date_parse formatLong.
Definition fetchNpiData := fetchNpiData Date_parse formatLong.
Definition handler := handler Date_parse formatLong.

End UtcEngine.

(** ** Sample data *)

Module Sample.

Definition springfield : Address.t :=
  Address.mk (Some "LOCATION") (Some "123 Main St") None (Some "Springfield")
    (Some "IL") (Some "62704") (Some "217-555-0100") None.

Definition cityOnly : Address.t :=
  Address.mk (Some "LOCATION") None None (Some "Springfield") None None None None.

Definition mailing : Address.t :=
  Address.mk (Some "MAILING") (Some "PO Box 9") None (Some "Peoria")
    (Some "IL") None None (Some "309-555-0101").

Definition secondary : Taxonomy.t :=
  Taxonomy.mk (Some "Internal Medicine") (Some false) (Some "A1") (Some "IL").
Definition cardiology : Taxonomy.t :=
  Taxonomy.mk (Some "Cardiology") (Some true) (Some "B2") (Some "IL").
Definition nephrology : Taxonomy.t :=
  Taxonomy.mk (Some "Nephrology") (Some true) (Some "C3") (Some "MO").

Definition janeBasic : Basic.t :=
  Basic.mk (Some "Dr.") (Some "Jane") (Some "Q") (Some "Public") None
    (Some "F") (Some "2007-07-08").

Definition jane : Raw.t :=
  Raw.mk "NPI-1" (Some janeBasic) (Some [secondary; cardiology; nephrology])
    (Some [mailing; springfield]).

Definition clinic : Raw.t :=
  Raw.mk "NPI-2"
    (Some (Basic.mk None None None None (Some "Main Street Clinic") (Some "F")
             (Some "unknown")))
    None None.

(** An individual whose first name is the text "N/A". *)
Definition namedNA : Raw.t :=
  Raw.mk "NPI-1" (Some (Basic.mk None (Some "N/A") None None None None None))
    None None.

(** A batch in which the first lookup times out and the second succeeds. *)
Definition network (i : nat) (url : string) : FetchOutcome :=
  match i with
  | 0%nat => Aborted
  | 1%nat => Responded 200 (Envelope (Some [jane]))
  | 2%nat => Responded 200 (Envelope (Some []))
  | 3%nat => Responded 503 Malformed
  | _ => Responded 200 Malformed
  end.

Definition get (npiParam : string) : Request.t :=
  Request.mk "GET" (QString npiParam).

End Sample.


(** ** The minimal handler (the second version of pages/api/fetchNpi.ts)

    No method check, no validation of the candidates, no timer and no
    per-lookup [try]/[catch]: an error thrown in one lookup rejects the
    whole [Promise.all]. *)

Module Minimal.

(** The object literal returned by one lookup: [{ npi, error }] or the
    seven-field record. *)
Record Result : Type := mkResult {
  npi : string;
  name : option string;
  specialty : option string;
  license : option string;
  phone : option string;
  fax : option string;
  address : option string;
  error : option string
}.

Definition notFound (npi : string) : Result :=
  mkResult npi None None None None None None (Some "Not found").

(** What one [fetch(url)] without a signal meets. *)
Inductive Reply : Type :=
  | Unreachable
  | Answered (status : nat) (payload : Payload).

Definition fetchPlain (network : string -> Reply) (url : string)
  : Eff.t HttpResponse.t :=
  ([url],
   match network url with
   | Unreachable => Js.Throw Js.TypeError
   | Answered status payload => Js.Normal (HttpResponse.mk status payload)
   end).

(** The text of an interpolation [${v}]: an undefined value prints as
    "undefined". *)
Definition interpolate (v : option string) : string :=
  match v with
  | Some s => s
  | None => "undefined"
  end.

(** Reading a property of, or calling a method on, an undefined value
    throws a [TypeError]. *)
Definition defined {A : Type} (v : option A) : Eff.t A :=
  match v with
  | Some a => Eff.ret a
  | None => Eff.throw Js.TypeError
  end.

(** [primaryAddress?.field || d] *)
Definition fieldOr (a : option Address.t) (field : Address.t -> option string)
    (d : string) : string :=
  match a with
  | Some a => Js.orStr (field a) d
  | None => d
  end.

(** Lines 254-266: the record built from the first result. *)
Definition display (npi : string) (result : Raw.t) : Eff.t Result :=
  let basic := Raw.basic result in
  do taxonomies <- defined (Raw.taxonomies result);
  let taxonomy := default Taxonomy.empty (Js.find isPrimary taxonomies) in
  do addresses <- defined (Raw.addresses result);
  let primaryAddress := Js.find (hasPurpose "LOCATION") addresses in
  do basic <- defined basic;
  Eff.ret
    {| npi := npi;
       name :=
         Some (Js.trim (Js.orStr (Basic.name_prefix basic) "" +:+ " "
                        +:+ interpolate (Basic.first_name basic) +:+ " "
                        +:+ Js.orStr (Basic.middle_name basic) "" +:+ " "
                        +:+ interpolate (Basic.last_name basic)));
       specialty := Some (Js.orStr (Taxonomy.desc taxonomy) "N/A");
       license := Some (Js.orStr (Taxonomy.license taxonomy) "N/A");
       phone := Some (fieldOr primaryAddress Address.telephone_number "N/A");
       fax := Some (fieldOr primaryAddress Address.fax_number "N/A");
       address :=
         Some (Js.trim (fieldOr primaryAddress Address.address_1 "" +:+ ", "
                        +:+ fieldOr primaryAddress Address.city "" +:+ ", "
                        +:+ fieldOr primaryAddress Address.state "" +:+ " "
                        +:+ fieldOr primaryAddress Address.postal_code ""));
       error := None |}.

(** Lines 244-267: the asynchronous function mapped over the list. *)
Definition lookup (network : string -> Reply) (npi : string) : Eff.t Result :=
  let url := registryUrl npi in
  do response <- fetchPlain network url;
  do data <- HttpResponse.json response;
  do result <- firstResult data;
  match result with
  | None => Eff.ret (notFound npi)
  | Some result => display npi result
  end.

Record Response : Type := mkResponse {
  status : nat;
  results : option (list Result);
  message : option string
}.

Record Run : Type := mkRun {
  response : option Response;
  outbound : list string
}.

(** Lines 233-275. *)
Definition handler (query_npi : QueryValue) (network : nat -> string -> Reply)
    (order : list nat) : Run :=
  match query_npi with
  | QString npiParam =>
      if String.eqb npiParam "" then
        mkRun (Some (mkResponse 400 None (Some "Missing or invalid NPI parameter"))) []
      else
        let npiList := map Js.trim (Js.split "," npiParam) in
        let calls := imap (fun i npi => lookup (network i) npi) npiList in
        let sent := concat (fst <$> calls) in
        match PromiseAll.all (snd <$> calls) order with
        | Some (Js.Normal results) =>
            mkRun (Some (mkResponse 200 (Some results) None)) sent
        | Some (Js.Throw _) =>
            mkRun (Some (mkResponse 500 None (Some "Internal server error"))) sent
        | None => mkRun None sent
        end
  | _ => mkRun (Some (mkResponse 400 None (Some "Missing or invalid NPI parameter"))) []
  end.

End Minimal.

(** ** The lookup page (pages/index.tsx, the [Home] component)

    The component's state is a record; each event handler is a function
    from the state of the render it was created in to the next state.  The
    two versions of the page have the same handlers. *)

Module Page.

Record State : Type := mkState {
  npiInputs : list string;
  results : list Processed.t;
  isLoading : bool;
  error : string;
  inputErrors : gmap nat string
}.

(** The [useState] initial values. *)
Definition initial : State := mkState [""] [] false "" ∅.

Definition addNpiField (st : State) : State :=
  mkState (npiInputs st ++ [""]) (results st) (isLoading st) (error st) ∅.

(** [newInputs.splice(index, 1)] and [delete newErrors[index]]; past the
    end [splice] removes nothing. *)
Definition removeNpiField (index : nat) (st : State) : State :=
  if (1 <? length (npiInputs st))%nat then
    mkState (delete index (npiInputs st)) (results st) (isLoading st) (error st)
      (delete index (inputErrors st))
  else st.

(** [value === '' || (/^\d+$/.test(value) && value.length <= 10)] *)
Definition acceptable (value : string) : bool :=
  String.eqb value "" || (Js.test_digits value && (String.length value <=? 10)%nat).

(** The page calls [updateNpiValue] with the index of a rendered field.
    Past the end the assignment [newInputs[index] = value] would leave
    holes in the array, which the model does not represent: [None]. *)
Definition updateNpiValue (index : nat) (value : string) (st : State)
  : option State :=
  if acceptable value then
    if decide (index < length (npiInputs st))%nat then
      Some (mkState (<[index := value]> (npiInputs st)) (results st)
              (isLoading st) (error st)
              (if Js.truthy (inputErrors st !! index)
               then delete index (inputErrors st)
               else inputErrors st))
    else None
  else Some st.

(** The [forEach] loop of [validateInputs], from field [index] on, with the
    two variables it assigns. *)
Fixpoint validateFrom (index : nat) (inputs : list string)
    (newErrors : gmap nat string) (hasErrors : bool) : gmap nat string * bool :=
  match inputs with
  | [] => (newErrors, hasErrors)
  | npi :: rest =>
      if String.eqb (Js.trim npi) "" then
        validateFrom (S index) rest newErrors hasErrors
      else if negb (String.length npi =? 10)%nat then
        validateFrom (S index) rest
          (<[index := "NPI must be 10 digits"]> newErrors) true
      else validateFrom (S index) rest newErrors hasErrors
  end.

(** [validateInputs]: the next state and the value returned. *)
Definition validateInputs (st : State) : State * bool :=
  let (newErrors, hasErrors) := validateFrom 0 (npiInputs st) ∅ false in
  (mkState (npiInputs st) (results st) (isLoading st) (error st) newErrors,
   negb hasErrors).

Definition hexDigit (n : nat) : ascii :=
  nth n (list_ascii_of_string "0123456789ABCDEF") "0"%char.

(** [%XX] for one byte. *)
Definition percent (byte : nat) : string :=
  String "%" (String (hexDigit (byte / 16)) (String (hexDigit (byte mod 16)) "")).

(** The characters [encodeURIComponent] leaves as they are. *)
Definition unreserved (c : ascii) : bool :=
  let n := nat_of_ascii c in
  ((65 <=? n) && (n <=? 90))%nat || ((97 <=? n) && (n <=? 122))%nat
  || Js.isDigit c
  || existsb (Ascii.eqb c) (list_ascii_of_string "-_.!~*'()").

(** [encodeURIComponent(s)]: every other code unit is replaced by the
    escaped bytes of its UTF-8 encoding (one byte below 128, two from 128
    to 255). *)
Fixpoint encodeURIComponent (s : string) : string :=
  match s with
  | EmptyString => EmptyString
  | String c s' =>
      let n := nat_of_ascii c in
      (if unreserved c then String c ""
       else if (n <? 128)%nat then percent n
       else percent (192 + n / 64) +:+ percent (128 + n mod 64))
      +:+ encodeURIComponent s'
  end.

(** [npi => npi.trim() !== ''] *)
Definition nonBlank (npi : string) : bool := negb (String.eqb (Js.trim npi) "").

(** [handleSubmit] up to the call of [fetch]: the next state and the URL
    requested, if the handler gets that far. *)
Definition submit (st : State) : State * option string :=
  let (st1, valid) := validateInputs st in
  if negb valid then (st1, None)
  else
    let validNpis := List.filter nonBlank (npiInputs st) in
    if (length validNpis =? 0)%nat then
      (mkState (npiInputs st1) (results st1) (isLoading st1)
         "Please enter at least one NPI number" (inputErrors st1), None)
    else
      let npiParam := Js.join "," validNpis in
      (mkState (npiInputs st1) (results st1) true "" (inputErrors st1),
       Some ("/api/fetchNpi?npi=" +:+ encodeURIComponent npiParam)).

(** What the page's [fetch] meets. *)
Inductive Body : Type :=
  | NotJson
  | Null
  | Object (data : ApiResponse.t).

Inductive Reply : Type :=
  | Unreachable
  | Answered (status : nat) (body : Body).

Definition setError (msg : string) (st : State) : State :=
  mkState (npiInputs st) (results st) (isLoading st) msg (inputErrors st).

Definition setResults (rs : list Processed.t) (st : State) : State :=
  mkState (npiInputs st) rs (isLoading st) (error st) (inputErrors st).

Definition setIsLoading (b : bool) (st : State) : State :=
  mkState (npiInputs st) (results st) b (error st) (inputErrors st).

(** The [try] block after [fetch] has settled: the state updates it
    makes, or the error it throws. *)
Definition received (reply : Reply) : Js.Completion (State -> State) :=
  match reply with
  | Unreachable => Js.Throw Js.TypeError
  | Answered status body =>
      if negb ((200 <=? status)%nat && (status <=? 299)%nat) then
        Js.Throw (Js.PlainError ("HTTP error! Status: " +:+ pretty status))
      else
        match body with
        | NotJson => Js.Throw Js.SyntaxError
        | Null => Js.Throw Js.TypeError
        | Object data =>
            if Js.truthy (ApiResponse.error data) then
              Js.Normal (fun st =>
                setResults [] (setError (Js.orStr (ApiResponse.error data) "") st))
            else
              match ApiResponse.results data with
              | Some rs => Js.Normal (setResults rs)
              | None =>
                  Js.Normal (fun st =>
                    setResults [] (setError "Invalid response format from server" st))
              end
        end
  end.

(** The rest of [handleSubmit], run when [fetch] settles, on the state of
    that moment: [try], [catch], [finally]. *)
Definition settle (reply : Reply) (st : State) : State :=
  let st1 :=
    match received reply with
    | Js.Normal update => update st
    | Js.Throw _ =>
        setResults [] (setError "Failed to fetch NPI data. Please try again." st)
    end in
  setIsLoading false st1.

(** [clearAll] resets the fields, the results, the error text and the
    marks; it does not touch the loading flag. *)
Definition clearAll (st : State) : State :=
  mkState [""] [] (isLoading st) "" ∅.

(** What the user and the network can do to the page. *)
Inductive Event : Type :=
  | AddField
  | RemoveField (index : nat)
  | Edit (index : nat) (value : string)
  | Submit
  | Settled (reply : Reply)
  | ClearAll.

Definition step (e : Event) (st : State) : option State :=
  match e with
  | AddField => Some (addNpiField st)
  | RemoveField index => Some (removeNpiField index st)
  | Edit index value => updateNpiValue index value st
  | Submit => Some (fst (submit st))
  | Settled reply => Some (settle reply st)
  | ClearAll => Some (clearAll st)
  end.

(** The state after a sequence of events, from the initial state. *)
Fixpoint run (events : list Event) (st : State) : option State :=
  match events with
  | [] => Some st
  | e :: rest =>
      match step e st with
      | Some st' => run rest st'
      | None => None
      end
  end.

(** The reply the page gets from a run of the API handler. *)
Definition replyOf (r : Run.t) : option Reply :=
  match Run.response r with
  | Some resp => Some (Answered (Response.status resp) (Object (Response.json resp)))
  | None => None
  end.

End Page.
(** * Vocabulary of the specification *)

(** The string starts, respectively ends, with white space. *)
Definition startsWithSpace (s : string) : bool :=
  match s with
  | EmptyString => false
  | String c _ => Js.isWhiteSpace c
  end.

Fixpoint endsWithSpace (s : string) : bool :=
  match s with
  | EmptyString => false
  | String c EmptyString => Js.isWhiteSpace c
  | String _ s' => endsWithSpace s'
  end.

(** [c] is [p] without its leading and trailing white space. *)
Definition TrimOf (p c : string) : Prop :=
  exists l r, p = l +:+ c +:+ r
              /\ Js.all Js.isWhiteSpace l = true
              /\ Js.all Js.isWhiteSpace r = true
              /\ startsWithSpace c = false /\ endsWithSpace c = false.


(** The ten decimal digits. *)
Definition decimalDigits : list ascii := list_ascii_of_string "0123456789".

(** A candidate that is exactly 10 characters long and consists solely of
    decimal digits. *)
Definition TenDigits (c : string) : Prop :=
  String.length c = 10%nat
  /\ Forall (fun ch => ch ∈ decimalDigits) (list_ascii_of_string c).

#[global] Instance TenDigits_dec (c : string) : Decision (TenDigits c).
Proof. unfold TenDigits. apply _. Defined.

(** Validation in the words of the specification: trim each candidate,
    keep the ones of ten digits, keep at most the first ten of those. *)
Definition validated (candidates : list string) : list string :=
  take 10 (filter TenDigits (Js.trim <$> candidates)).

(** The per-identifier outcomes of the error taxonomy. *)
Inductive Lookup : Type :=
  | Timeout
  | UpstreamError
  | NotFound
  | Found (result : Raw.t).

(** How an upstream outcome is classified: no answer within the deadline
    is a timeout; a transport failure, a non-2xx status or a malformed
    payload is an upstream error; an answer with no matching record is not
    found; otherwise the first record is the match. *)
Definition classify (o : FetchOutcome) : Lookup :=
  match o with
  | Aborted => Timeout
  | NetworkFailure => UpstreamError
  | Responded status payload =>
      if decide (200 <= status <= 299)%nat then
        match payload with
        | Malformed | JsonNull => UpstreamError
        | Envelope None | Envelope (Some []) => NotFound
        | Envelope (Some (r :: _)) => Found r
        end
      else UpstreamError
  end.

(** The message of a failed lookup. *)
Definition failureMessage (l : Lookup) : option string :=
  match l with
  | Timeout => Some "Request timed out"
  | UpstreamError => Some "Failed to retrieve provider data"
  | NotFound => Some "Not found"
  | Found _ => None
  end.

(** The records of a run: the [results] of its response, none when the
    response carries no list. *)
Definition recordsOf (run : Run.t) : list Processed.t :=
  match Run.response run with
  | Some resp => default [] (ApiResponse.results (Response.json resp))
  | None => []
  end.

Definition statusOf (run : Run.t) : option nat :=
  Response.status <$> Run.response run.

Definition errorOf (run : Run.t) : option string :=
  Run.response run ≫= fun resp => ApiResponse.error (Response.json resp).

(** The record a classified lookup is displayed as: an error record for a
    failed lookup, the normalized record for a match. *)
Definition displayRecord (Date_parse : string -> option Z) (formatLong : Z -> string)
    (npi : string) (l : Lookup) : Processed.t :=
  match l with
  | Timeout => Processed.failure npi "Request timed out"
  | UpstreamError => Processed.failure npi "Failed to retrieve provider data"
  | NotFound => Processed.failure npi "Not found"
  | Found r => processNpiResult Date_parse formatLong npi r
  end.

(** The records of a batch, each computed from the outcome of its own
    lookup: [network i] is what the [i]-th lookup meets. *)
Definition batchRecords (Date_parse : string -> option Z) (formatLong : Z -> string)
    (network : nat -> string -> FetchOutcome) (npis : list string)
  : list Processed.t :=
  imap (fun i npi =>
          displayRecord Date_parse formatLong npi
            (classify (network i (registryUrl npi)))) npis.

(** A field is absent when it is undefined or the empty string. *)
Definition absent (v : option string) : Prop := v = None \/ v = Some "".

#[global] Instance absent_dec (v : option string) : Decision (absent v).
Proof. unfold absent. apply _. Defined.

(** The text of a field, an absent field reading as the empty string. *)
Definition textOf (v : option string) : string := default "" v.

(** The text of a field for display, an absent field reading as "N/A". *)
Definition orNA (v : option string) : string :=
  if decide (absent v) then "N/A" else textOf v.

(** A record is classified Individual when its enumeration type is the
    individual-type code. *)
Definition Individual (r : Raw.t) : Prop := Raw.enumeration_type r = "NPI-1".

Definition basicOf (r : Raw.t) : Basic.t := default Basic.empty (Raw.basic r).
Definition taxonomiesOf (r : Raw.t) : list Taxonomy.t := default [] (Raw.taxonomies r).
Definition addressesOf (r : Raw.t) : list Address.t := default [] (Raw.addresses r).

(** The composed name of an individual. *)
Definition composedName (b : Basic.t) : string :=
  Js.trim (textOf (Basic.name_prefix b) +:+ " " +:+ textOf (Basic.first_name b)
           +:+ " "
           +:+ (if decide (absent (Basic.middle_name b)) then ""
                else textOf (Basic.middle_name b) +:+ " ")
           +:+ textOf (Basic.last_name b)).

Definition Primary (t : Taxonomy.t) : Prop := Taxonomy.primary t = Some true.

#[global] Instance Primary_dec (t : Taxonomy.t) : Decision (Primary t).
Proof. unfold Primary. apply _. Defined.

Definition Purpose (p : string) (a : Address.t) : Prop :=
  Address.address_purpose a = Some p.

#[global] Instance Purpose_dec (p : string) (a : Address.t) : Decision (Purpose p a).
Proof. unfold Purpose. apply _. Defined.

(** Taxonomy selection in the words of the specification: the entry
    flagged primary, else the first entry, else an empty placeholder. *)
Definition taxonomyChoice (l : list Taxonomy.t) : Taxonomy.t :=
  match filter Primary l with
  | t :: _ => t
  | [] => match l with
          | t :: _ => t
          | [] => Taxonomy.empty
          end
  end.

(** Address selection in the words of the specification. *)
Definition addressChoice (l : list Address.t) : Address.t :=
  match filter (Purpose "LOCATION") l with
  | a :: _ => a
  | [] => match filter (Purpose "MAILING") l with
          | a :: _ => a
          | [] => match l with
                  | a :: _ => a
                  | [] => Address.empty
                  end
          end
  end.

(** The parts a field contributes to the address: itself when present. *)
Definition part (v : option string) : list string :=
  if decide (absent v) then [] else [textOf v].

(** Address formatting in the words of the specification. *)
Definition addressText (a : Address.t) : string :=
  if decide (absent (Address.address_1 a)) then "N/A"
  else
    Js.join ", "
      (part (Address.address_1 a) ++ part (Address.address_2 a)
       ++ part (Address.city a)
       ++ (if decide (absent (Address.state a) \/ absent (Address.postal_code a))
           then part (Address.state a) ++ part (Address.postal_code a)
           else [textOf (Address.state a) +:+ " "
                 +:+ textOf (Address.postal_code a)])).



(** The failures of one lookup and the message each is reported with: a
    timeout; a transport failure, a non-2xx response or a malformed payload;
    zero results. *)
Inductive FailsWith : FetchOutcome -> string -> Prop :=
  | fails_timeout :
      FailsWith Aborted "Request timed out"
  | fails_transport :
      FailsWith NetworkFailure "Failed to retrieve provider data"
  | fails_status (status : nat) (payload : Payload) :
      ~ (200 <= status <= 299)%nat ->
      FailsWith (Responded status payload) "Failed to retrieve provider data"
  | fails_malformed (status : nat) :
      FailsWith (Responded status Malformed) "Failed to retrieve provider data"
  | fails_null (status : nat) :
      FailsWith (Responded status JsonNull) "Failed to retrieve provider data"
  | fails_no_results (status : nat) :
      (200 <= status <= 299)%nat ->
      FailsWith (Responded status (Envelope None)) "Not found"
  | fails_zero_results (status : nat) :
      (200 <= status <= 299)%nat ->
      FailsWith (Responded status (Envelope (Some []))) "Not found".

(** The three name parts that decide whether an individual has a name. *)
Definition NamePartsAbsent (b : Basic.t) : Prop :=
  absent (Basic.name_prefix b) /\ absent (Basic.first_name b)
  /\ absent (Basic.last_name b).

#[global] Instance NamePartsAbsent_dec (b : Basic.t) : Decision (NamePartsAbsent b).
Proof. unfold NamePartsAbsent. apply _. Defined.

(** Every lookup of a batch of [n] has settled. *)
Definition AllSettled (order : list nat) (n : nat) : Prop :=
  Forall (fun j => j ∈ order) (seq 0 n).

#[global] Instance AllSettled_dec (order : list nat) (n : nat) :
  Decision (AllSettled order n).
Proof. unfold AllSettled. apply _. Defined.

(** The status the handler answers a request with, read off its guards:
    [None] while it waits for lookups to settle. *)
Definition expectedStatus (req : Request.t) (order : list nat) : option nat :=
  if decide (Request.method req = "GET") then
    match Request.query_npi req with
    | QString npiParam =>
        if decide (npiList npiParam = []) then Some 400%nat
        else if decide (AllSettled order (length (npiList npiParam)))
             then Some 200%nat else None
    | _ => Some 400%nat
    end
  else Some 405%nat.

(** The replies on which a lookup of the minimal handler throws: no
    answer, a body that is not JSON or is [null], or a first result that
    lacks its basic data, its taxonomies or its addresses. *)
Inductive Rejects : Minimal.Reply -> Prop :=
  | rejects_unreachable : Rejects Minimal.Unreachable
  | rejects_malformed (status : nat) : Rejects (Minimal.Answered status Malformed)
  | rejects_null (status : nat) : Rejects (Minimal.Answered status JsonNull)
  | rejects_incomplete (status : nat) (r : Raw.t) (rest : list Raw.t) :
      Raw.basic r = None \/ Raw.taxonomies r = None \/ Raw.addresses r = None ->
      Rejects (Minimal.Answered status (Envelope (Some (r :: rest)))).

(** The candidates of the minimal handler: the trimmed pieces, unfiltered. *)
Definition candidates (npiParam : string) : list string :=
  Js.trim <$> Js.split "," npiParam.

(** The number of separators in a string. *)
Fixpoint occurrences (sep : ascii) (s : string) : nat :=
  match s with
  | EmptyString => 0
  | String c s' => (if Ascii.eqb c sep then 1 else 0) + occurrences sep s'
  end.

(** A field of the page holds at most ten characters, all digits. *)
Definition FieldOk (v : string) : Prop :=
  (String.length v <= 10)%nat /\ Js.all Js.isDigit v = true.

(** The page always has a field, and every field is well formed. *)
Definition PageInv (st : Page.State) : Prop :=
  Page.npiInputs st <> [] /\ Forall FieldOk (Page.npiInputs st).

(** A field that [validateInputs] marks: not blank and not ten characters
    long. *)
Definition Offending (v : string) : Prop :=
  Js.trim v <> "" /\ String.length v <> 10%nat.

#[global] Instance Offending_dec (v : string) : Decision (Offending v).
Proof. unfold Offending. apply _. Defined.

(** The fields [handleSubmit] sends: the ones that are not blank. *)
Definition submitted (st : Page.State) : list string :=
  filter (fun v => Js.trim v <> "") (Page.npiInputs st).
(** * Properties *)

(** ** Strings *)

Section StringFacts.

Lemma append_cons (c : ascii) (a b : string) :
  String c a +:+ b = String c (a +:+ b).
Proof. reflexivity. Qed.

Lemma append_empty_l (s : string) : EmptyString +:+ s = s.
Proof. reflexivity. Qed.

Lemma append_empty_r (s : string) : s +:+ EmptyString = s.
Proof. induction s as [|c s IH]; [reflexivity|]. rewrite append_cons, IH. reflexivity. Qed.

Lemma split_nonempty (sep : ascii) (s : string) : Js.split sep s <> [].
Proof.
  induction s as [|c s IH]; simpl; [discriminate|].
  destruct (Ascii.eqb c sep); [discriminate|].
  destruct (Js.split sep s); discriminate.
Qed.

(** Joining the pieces with the separator gives the string back. *)
Lemma join_split (sep : ascii) (s : string) :
  Js.join (String sep EmptyString) (Js.split sep s) = s.
Proof.
  induction s as [|c s IH]; simpl; [reflexivity|].
  destruct (Ascii.eqb_spec c sep) as [->|Hne].
  - pose proof (split_nonempty sep s) as Hn.
    destruct (Js.split sep s) as [|p rest]; [contradiction|].
    simpl. simpl in IH. rewrite IH. reflexivity.
  - pose proof (split_nonempty sep s) as Hn.
    destruct (Js.split sep s) as [|p rest]; [contradiction|].
    destruct rest as [|q rest]; simpl in *; [congruence|].
    rewrite <- IH. reflexivity.
Qed.

(** No piece contains the separator. *)
Lemma split_pieces (sep : ascii) (s : string) :
  Forall (fun p => Js.all (fun c => negb (Ascii.eqb c sep)) p = true)
    (Js.split sep s).
Proof.
  induction s as [|c s IH]; simpl.
  - repeat constructor.
  - destruct (Ascii.eqb c sep) eqn:E.
    + constructor; [reflexivity | exact IH].
    + pose proof (split_nonempty sep s) as Hn.
      destruct (Js.split sep s) as [|p rest]; [contradiction|].
      inversion IH; subst. constructor; [|assumption].
      simpl. rewrite E. simpl. assumption.
Qed.

Lemma trimStart_spec (s : string) :
  exists l, s = l +:+ Js.trimStart s /\ Js.all Js.isWhiteSpace l = true
            /\ startsWithSpace (Js.trimStart s) = false.
Proof.
  induction s as [|c s (l & Hs & Hl & Hh)]; simpl.
  - exists EmptyString. auto.
  - destruct (Js.isWhiteSpace c) eqn:E.
    + exists (String c l). rewrite append_cons, <- Hs. simpl. rewrite E, Hl. auto.
    + exists EmptyString. rewrite append_empty_l. simpl. auto.
Qed.

Lemma trimEnd_spec (s : string) :
  exists r, s = Js.trimEnd s +:+ r /\ Js.all Js.isWhiteSpace r = true
            /\ endsWithSpace (Js.trimEnd s) = false
            /\ startsWithSpace (Js.trimEnd s) = startsWithSpace s
               && negb (Js.all Js.isWhiteSpace s).
Proof.
  induction s as [|c s (r & Hs & Hr & He & Hh)]; simpl.
  - exists EmptyString. auto.
  - destruct (Js.trimEnd s) as [|d t] eqn:Et.
    + rewrite append_empty_l in Hs. subst r. rewrite Hr.
      destruct (Js.isWhiteSpace c) eqn:E; simpl.
      * exists (String c s). rewrite append_empty_l. simpl. rewrite E, Hr. auto.
      * exists s. rewrite E, append_cons, append_empty_l. auto.
    + exists r. rewrite append_cons, <- Hs.
      repeat split; try assumption.
      assert (Js.all Js.isWhiteSpace s = false) as Hf.
      { destruct (Js.all Js.isWhiteSpace s) eqn:Ea; [|reflexivity].
        exfalso. clear - Et Ea. revert d t Et.
        induction s as [|c s IH]; simpl in *; [discriminate|].
        apply andb_prop in Ea as [Ec Es]. intros d t.
        destruct (Js.trimEnd s) eqn:E'.
        - rewrite Ec. discriminate.
        - intros _. eapply IH; eauto. }
      rewrite Hf. rewrite andb_false_r. simpl. rewrite andb_true_r. reflexivity.
Qed.

Lemma trim_spec (p : string) : TrimOf p (Js.trim p).
Proof.
  unfold Js.trim.
  destruct (trimStart_spec p) as (l & Hp & Hl & Hh).
  destruct (trimEnd_spec (Js.trimStart p)) as (r & Hs & Hr & He & Hh').
  exists l, r. repeat split; try assumption.
  - rewrite <- Hs. exact Hp.
  - rewrite Hh', Hh. reflexivity.
Qed.

End StringFacts.

(** ** Validation *)

Section ValidationFacts.

Lemma isDigit_spec (c : ascii) : Js.isDigit c = true <-> c ∈ decimalDigits.
Proof.
  assert (Js.isDigit c = bool_decide (c ∈ decimalDigits)) as ->.
  { destruct c as [[] [] [] [] [] [] [] []]; vm_compute; reflexivity. }
  apply bool_decide_eq_true.
Qed.

Lemma all_Forall (p : ascii -> bool) (s : string) :
  Js.all p s = true <-> Forall (fun c => p c = true) (list_ascii_of_string s).
Proof.
  induction s as [|c s IH]; simpl.
  - split; auto.
  - rewrite andb_true_iff, Forall_cons, IH. reflexivity.
Qed.

Lemma isValidNpi_spec (n : string) : isValidNpi n = true <-> TenDigits n.
Proof.
  unfold isValidNpi, TenDigits.
  rewrite andb_true_iff, Nat.eqb_eq.
  assert (Js.all Js.isDigit n = true
          <-> Forall (fun ch => ch ∈ decimalDigits) (list_ascii_of_string n)) as Hall.
  { rewrite all_Forall. apply Forall_proper; [|reflexivity].
    intros c. apply isDigit_spec. }
  split; intros [Hlen Hd]; (split; [assumption|]).
  - apply Hall. destruct n; [discriminate | exact Hd].
  - destruct n; [discriminate | apply Hall, Hd].
Qed.

Lemma filter_bool_decide {A : Type} (f : A -> bool) (P : A -> Prop)
    `{!forall x, Decision (P x)} (l : list A) :
  (forall x, f x = true <-> P x) -> List.filter f l = filter P l.
Proof.
  intros Hf. induction l as [|x l IH]; [reflexivity|].
  simpl. rewrite filter_cons, IH.
  destruct (decide (P x)) as [HP|HP].
  - apply Hf in HP. rewrite HP. reflexivity.
  - destruct (f x) eqn:E; [|reflexivity]. apply Hf in E. contradiction.
Qed.

Lemma npiList_validated (npiParam : string) :
  npiList npiParam = validated (Js.split "," npiParam).
Proof.
  unfold npiList, validated, MAX_NPIS.
  f_equal. apply filter_bool_decide, isValidNpi_spec.
Qed.

End ValidationFacts.

(** ** Lookups and their aggregation *)

Section DispatchFacts.

Variable Date_parse : string -> option Z.
Variable formatLong : Z -> string.


Lemma ok_decide (r : HttpResponse.t) :
  HttpResponse.ok r = bool_decide (200 <= HttpResponse.status r <= 299)%nat.
Proof.
  unfold HttpResponse.ok.
  destruct (Nat.leb_spec 200 (HttpResponse.status r));
    destruct (Nat.leb_spec (HttpResponse.status r) 299); simpl;
    symmetry; first [apply bool_decide_eq_true | apply bool_decide_eq_false]; lia.
Qed.

(** One lookup issues exactly one request and always fulfils, with the
    record of its own outcome. *)
Lemma fetchNpiData_spec (network : string -> FetchOutcome) (npi : string) :
  fetchNpiData Date_parse formatLong network npi
  = ([registryUrl npi],
     Js.Normal (displayRecord Date_parse formatLong npi
                  (classify (network (registryUrl npi))))).
Proof.
  unfold fetchNpiData, fetch, classify.
  destruct (network (registryUrl npi)) as [| |status payload]; try reflexivity.
  unfold Eff.bind, Eff.tryCatch. rewrite ok_decide. simpl.
  destruct (decide (200 <= status <= 299)%nat) as [Hok|Hok].
  - rewrite bool_decide_eq_true_2 by assumption. simpl.
    destruct payload as [| |[[|r rs]|]]; reflexivity.
  - rewrite bool_decide_eq_false_2 by assumption. reflexivity.
Qed.

Lemma displayRecord_npi (npi : string) (l : Lookup) :
  Processed.npi (displayRecord Date_parse formatLong npi l) = npi.
Proof. destruct l; reflexivity. Qed.

(** The state of the aggregate after the promises listed in [order] have
    fulfilled: no rejection, and slot [j] holds the value of promise [j]
    exactly when [j] is listed. *)
Lemma settle_fulfilled {A : Type} (vs : list A) (order : list nat) :
  let st := foldl (PromiseAll.settle (Js.Normal <$> vs))
              (PromiseAll.init (length vs)) order in
  PromiseAll.rejection st = None
  /\ length (PromiseAll.values st) = length vs
  /\ forall j, (j < length vs)%nat ->
       PromiseAll.values st !! j
       = Some (if decide (j ∈ order) then vs !! j else None).
Proof.
  induction order as [|i order IH] using rev_ind; cbv zeta in *.
  - cbn [foldl PromiseAll.init PromiseAll.values PromiseAll.rejection].
    split; [reflexivity|]. split; [apply length_replicate|].
    intros j Hj. rewrite lookup_replicate_2 by assumption.
    rewrite decide_False; [reflexivity | apply not_elem_of_nil].
  - rewrite foldl_app. cbn [foldl].
    destruct IH as (Hrej & Hlen & Hval).
    set (st := foldl _ _ order) in *.
    unfold PromiseAll.settle. rewrite list_lookup_fmap.
    destruct (vs !! i) as [v|] eqn:Hi; cbv [fmap option_fmap option_map];
      cbn [PromiseAll.values PromiseAll.rejection].
    + split; [assumption|]. split; [rewrite length_insert; assumption|].
      intros j Hj. destruct (decide (j = i)) as [->|Hne].
      * rewrite list_lookup_insert_eq by lia.
        rewrite decide_True by (apply elem_of_app; right; apply list_elem_of_singleton; reflexivity).
        congruence.
      * rewrite list_lookup_insert_ne by congruence. rewrite Hval by assumption.
        f_equal. destruct (decide (j ∈ order)) as [Hin|Hin].
        -- rewrite decide_True; [reflexivity | apply elem_of_app; auto].
        -- rewrite decide_False; [reflexivity|].
           rewrite elem_of_app, list_elem_of_singleton. tauto.
    + split; [assumption|]. split; [assumption|].
      intros j Hj. rewrite Hval by assumption. f_equal.
      apply lookup_ge_None in Hi.
      destruct (decide (j ∈ order)) as [Hin|Hin].
      * rewrite decide_True; [reflexivity | apply elem_of_app; auto].
      * rewrite decide_False; [reflexivity|].
        rewrite elem_of_app, list_elem_of_singleton. intros [?| ->]; [tauto | lia].
Qed.

(** Once every promise has fulfilled, in whatever order, the aggregate
    fulfils with the values in index order. *)
Lemma all_fulfilled {A : Type} (vs : list A) (order : list nat) :
  (forall j, (j < length vs)%nat -> j ∈ order) ->
  PromiseAll.all (Js.Normal <$> vs) order = Some (Js.Normal vs).
Proof.
  intros Hcover. unfold PromiseAll.all. rewrite length_fmap.
  destruct (settle_fulfilled vs order) as (Hrej & Hlen & Hval).
  rewrite Hrej.
  assert (PromiseAll.values
            (foldl (PromiseAll.settle (Js.Normal <$> vs))
               (PromiseAll.init (length vs)) order) = Some <$> vs) as ->.
  { apply list_eq. intros j. rewrite list_lookup_fmap.
    destruct (decide (j < length vs)%nat) as [Hj|Hj].
    - rewrite Hval by assumption. rewrite decide_True by auto.
      destruct (lookup_lt_is_Some_2 vs j Hj) as [v ->]. reflexivity.
    - rewrite (lookup_ge_None_2 vs) by lia.
      apply lookup_ge_None_2. lia. }
  rewrite (mapM_fmap_Some id Some) by reflexivity. reflexivity.
Qed.

(** While some promise has not fulfilled, the aggregate stays pending. *)
Lemma all_pending {A : Type} (vs : list A) (order : list nat) (j : nat) :
  (j < length vs)%nat -> j ∉ order ->
  PromiseAll.all (Js.Normal <$> vs) order = None.
Proof.
  intros Hj Hnot. unfold PromiseAll.all. rewrite length_fmap.
  destruct (settle_fulfilled vs order) as (Hrej & Hlen & Hval).
  rewrite Hrej. specialize (Hval j Hj). rewrite decide_False in Hval by assumption.
  assert (mapM id (PromiseAll.values
            (foldl (PromiseAll.settle (Js.Normal <$> vs))
               (PromiseAll.init (length vs)) order)) = None) as ->; [|reflexivity].
  apply mapM_None. apply Exists_exists. exists None. split; [|reflexivity].
  eapply list_elem_of_lookup_2. exact Hval.
Qed.

End DispatchFacts.

(** ** Runs of the handler *)

Section HandlerFacts.

Variable Date_parse : string -> option Z.
Variable formatLong : Z -> string.


Lemma npiList_empty_string : npiList "" = [].
Proof. reflexivity. Qed.

Lemma concat_singletons {A B : Type} (f : nat -> A -> B) (l : list A) :
  concat (imap (fun i x => [f i x]) l) = imap f l.
Proof.
  revert f. induction l as [|x l IH]; intros f; [reflexivity|].
  rewrite !imap_cons. simpl. f_equal. exact (IH (f ∘ S)).
Qed.

Lemma calls_spec (network : nat -> string -> FetchOutcome) (npis : list string) :
  let calls :=
    imap (fun i npi => fetchNpiData Date_parse formatLong (network i) npi) npis in
  concat (fst <$> calls) = registryUrl <$> npis
  /\ snd <$> calls = Js.Normal <$> batchRecords Date_parse formatLong network npis.
Proof.
  cbv zeta. unfold batchRecords. rewrite !fmap_imap. split.
  - transitivity (concat (imap (fun (_ : nat) npi => [registryUrl npi]) npis)).
    + f_equal. apply imap_ext. intros i npi _. simpl.
      rewrite fetchNpiData_spec. reflexivity.
    + rewrite (concat_singletons (fun _ => registryUrl)).
      exact (imap_const registryUrl npis).
  - apply imap_ext. intros i npi _. simpl.
    rewrite fetchNpiData_spec. reflexivity.
Qed.

(** A GET request whose parameter has a surviving identifier: once every
    lookup has settled, the response is 200 with the batch records, and
    one request went out per survivor. *)
Lemma handler_batch (npiParam : string) (network : nat -> string -> FetchOutcome)
    (order : list nat) :
  npiList npiParam <> [] ->
  (forall j, (j < length (npiList npiParam))%nat -> j ∈ order) ->
  handler Date_parse formatLong (Request.mk "GET" (QString npiParam)) network order
  = Run.mk (Some (Response.mk corsHeaders 200%nat
                    (ApiResponse.success
                       (batchRecords Date_parse formatLong network
                          (npiList npiParam)))))
      (registryUrl <$> npiList npiParam).
Proof.
  intros Hne Hcover. unfold handler.
  cbn [Request.method Request.query_npi]. change (String.eqb "GET" "GET") with true.
  cbn [negb].
  destruct (String.eqb_spec npiParam "") as [->|_]; [contradiction|].
  destruct (npiList npiParam) as [|n ns] eqn:El; [contradiction|].
  cbn [length Nat.eqb].
  destruct (calls_spec network (n :: ns)) as [Hsent Hres].
  cbv zeta in Hsent, Hres. rewrite Hsent, Hres.
  rewrite all_fulfilled; [reflexivity|].
  unfold batchRecords. rewrite length_imap. exact Hcover.
Qed.

(** A GET request none of whose candidates survives: 400, and nothing
    went out. *)
Lemma handler_no_valid (npiParam : string) (network : nat -> string -> FetchOutcome)
    (order : list nat) :
  npiList npiParam = [] ->
  handler Date_parse formatLong (Request.mk "GET" (QString npiParam)) network order
  = Run.mk (Some (Response.mk corsHeaders 400%nat
                    (ApiResponse.failure
                       (if decide (npiParam = "")
                        then "Missing or invalid NPI parameter"
                        else "No valid NPI numbers provided")))) [].
Proof.
  intros Hnil. unfold handler.
  cbn [Request.method Request.query_npi]. change (String.eqb "GET" "GET") with true.
  cbn [negb].
  destruct (String.eqb_spec npiParam "") as [->|Hs].
  - reflexivity.
  - rewrite Hnil. cbn [length Nat.eqb]. rewrite decide_False by assumption.
    reflexivity.
Qed.


End HandlerFacts.

(** ** The normalizer *)

Section NormalizerFacts.

Lemma truthy_absent (v : option string) : Js.truthy v = false <-> absent v.
Proof.
  unfold absent. destruct v as [s|]; simpl.
  - destruct (String.eqb_spec s "") as [->|Hs]; simpl.
    + split; auto.
    + split; [discriminate|]. intros [H|H]; congruence.
  - split; auto.
Qed.

Lemma truthy_present (v : option string) : Js.truthy v = true <-> ~ absent v.
Proof.
  rewrite <- truthy_absent. destruct (Js.truthy v); split; congruence.
Qed.

Lemma truthy_decide (v : option string) :
  Js.truthy v = bool_decide (~ absent v).
Proof.
  destruct (Js.truthy v) eqn:E; symmetry.
  - apply bool_decide_eq_true, truthy_present, E.
  - apply bool_decide_eq_false. intros H. apply truthy_present in H. congruence.
Qed.

Lemma orStr_empty (v : option string) : Js.orStr v "" = textOf v.
Proof.
  destruct v as [s|]; simpl; [|reflexivity].
  destruct (String.eqb_spec s ""); congruence.
Qed.

Lemma orStr_NA (v : option string) : Js.orStr v "N/A" = orNA v.
Proof.
  unfold orNA. destruct (decide (absent v)) as [[->| ->]|Ha]; try reflexivity.
  destruct v as [s|]; simpl.
  - destruct (String.eqb_spec s "") as [->|Hs]; [|reflexivity].
    exfalso. apply Ha. right. reflexivity.
  - exfalso. apply Ha. left. reflexivity.
Qed.

Lemma pushIf_part (parts : list string) (v : option string) :
  pushIf parts v = parts ++ part v.
Proof.
  unfold pushIf, part. rewrite orStr_empty.
  destruct (decide (absent v)) as [Ha|Ha].
  - apply truthy_absent in Ha. rewrite Ha, app_nil_r. reflexivity.
  - apply truthy_present in Ha. rewrite Ha. reflexivity.
Qed.

(** [find] returns the first element that satisfies the test. *)
Lemma find_filter {A : Type} (f : A -> bool) (P : A -> Prop)
    `{!forall x, Decision (P x)} (l : list A) :
  (forall x, f x = true <-> P x) -> Js.find f l = head (filter P l).
Proof.
  intros Hf. unfold Js.find. induction l as [|x l IH]; [reflexivity|].
  simpl. rewrite filter_cons. destruct (decide (P x)) as [HP|HP].
  - apply Hf in HP. rewrite HP. reflexivity.
  - destruct (f x) eqn:E; [apply Hf in E; contradiction | exact IH].
Qed.

Lemma find_first {A : Type} (f : A -> bool) (before after : list A) (x : A) :
  Forall (fun y => f y = false) before -> f x = true ->
  Js.find f (before ++ x :: after) = Some x.
Proof.
  intros Hb Hx. unfold Js.find.
  induction Hb as [|y before Hy _ IH]; simpl; [rewrite Hx; reflexivity|].
  rewrite Hy. exact IH.
Qed.

Lemma isPrimary_spec (t : Taxonomy.t) : isPrimary t = true <-> Primary t.
Proof.
  unfold isPrimary, Primary. destruct (Taxonomy.primary t) as [[]|];
    split; congruence.
Qed.

Lemma hasPurpose_spec (p : string) (a : Address.t) :
  hasPurpose p a = true <-> Purpose p a.
Proof.
  unfold hasPurpose, Purpose. destruct (Address.address_purpose a) as [q|].
  - destruct (String.eqb_spec q p); split; congruence.
  - split; congruence.
Qed.

Lemma selectTaxonomy_spec (l : list Taxonomy.t) :
  selectTaxonomy l = taxonomyChoice l.
Proof.
  unfold selectTaxonomy, taxonomyChoice.
  rewrite (find_filter isPrimary Primary) by apply isPrimary_spec.
  destruct (filter Primary l); [|reflexivity].
  destruct l; reflexivity.
Qed.

Lemma selectAddress_spec (l : list Address.t) :
  selectAddress l = addressChoice l.
Proof.
  unfold selectAddress, addressChoice.
  rewrite (find_filter (hasPurpose "LOCATION") (Purpose "LOCATION"))
    by apply hasPurpose_spec.
  rewrite (find_filter (hasPurpose "MAILING") (Purpose "MAILING"))
    by apply hasPurpose_spec.
  destruct (filter (Purpose "LOCATION") l); [|reflexivity].
  destruct (filter (Purpose "MAILING") l); [|reflexivity].
  destruct l; reflexivity.
Qed.

Lemma formattedAddress_spec (a : Address.t) :
  formattedAddress a = addressText a.
Proof.
  unfold formattedAddress, addressText.
  rewrite !pushIf_part, !truthy_decide.
  destruct (decide (absent (Address.address_1 a))) as [H1|H1].
  - rewrite bool_decide_eq_false_2 by tauto. reflexivity.
  - rewrite (bool_decide_eq_true_2 (~ absent (Address.address_1 a))) by assumption.
    assert (part (Address.address_1 a) = [textOf (Address.address_1 a)]) as E1.
    { unfold part. rewrite decide_False by assumption. reflexivity. }
    rewrite E1, orStr_empty, orStr_empty. cbn [app].
    destruct (decide (absent (Address.state a) \/ absent (Address.postal_code a)))
      as [H|H].
    + assert (bool_decide (~ absent (Address.state a))
              && bool_decide (~ absent (Address.postal_code a)) = false) as ->.
      { apply andb_false_iff. destruct H as [H|H]; [left|right];
          apply bool_decide_eq_false; tauto. }
      rewrite <- !app_assoc. reflexivity.
    + rewrite !bool_decide_eq_true_2 by tauto. cbn [andb].
      rewrite <- !app_assoc. reflexivity.
Qed.

End NormalizerFacts.

(** * The claims about the normalizer *)

(** C4.  Taxonomy selection and address selection.  The specialty, license
    and license state of the display record are read from the taxonomy
    entry flagged primary, else from the first entry, else from an empty
    placeholder; the phone, fax and formatted address are read from the
    first address with purpose "LOCATION", else the first with purpose
    "MAILING", else the first address, else an empty placeholder.  Every
    field of a placeholder reads as "N/A". *)
Theorem selection_fallback_chain :
  forall (Date_parse : string -> option Z) (formatLong : Z -> string)
         (npi : string) (r : Raw.t),
    let out := processNpiResult Date_parse formatLong npi r in
    let taxonomy := taxonomyChoice (taxonomiesOf r) in
    let address := addressChoice (addressesOf r) in
    (Processed.specialty out = Some (orNA (Taxonomy.desc taxonomy))
     /\ Processed.license out = Some (orNA (Taxonomy.license taxonomy))
     /\ Processed.licenseState out = Some (orNA (Taxonomy.state taxonomy)))
    /\ (Processed.phone out = Some (orNA (Address.telephone_number address))
        /\ Processed.fax out = Some (orNA (Address.fax_number address))
        /\ Processed.address out = Some (formattedAddress address))
    /\ (orNA (Taxonomy.desc Taxonomy.empty) = "N/A"
        /\ orNA (Taxonomy.license Taxonomy.empty) = "N/A"
        /\ orNA (Taxonomy.state Taxonomy.empty) = "N/A")
    /\ (orNA (Address.telephone_number Address.empty) = "N/A"
        /\ orNA (Address.fax_number Address.empty) = "N/A"
        /\ formattedAddress Address.empty = "N/A").
Proof.
  intros Date_parse formatLong npi r. cbv zeta.
  unfold processNpiResult, taxonomiesOf, addressesOf.
  cbn [Processed.specialty Processed.license Processed.licenseState
       Processed.phone Processed.fax Processed.address].
  rewrite selectTaxonomy_spec, selectAddress_spec, !orStr_NA.
  repeat split; reflexivity.
Qed.

(** C5.  Address formatting.  The formatted address of the display record
    is "N/A" when the first street line of the selected address is empty
    or absent; otherwise it is the ", "-joined sequence of street line 1,
    street line 2 if present, city if present, and then "STATE POSTAL" as
    one segment when both are present, else whichever of the two is
    present.  The two examples of the specification hold. *)
Theorem address_formatting :
  forall (Date_parse : string -> option Z) (formatLong : Z -> string)
         (npi : string) (r : Raw.t),
    Processed.address (processNpiResult Date_parse formatLong npi r)
    = Some (addressText (selectAddress (addressesOf r)))
    /\ (forall purpose phone fax,
          formattedAddress
            (Address.mk purpose (Some "123 Main St") None (Some "Springfield")
               (Some "IL") (Some "62704") phone fax)
          = "123 Main St, Springfield, IL 62704")
    /\ (forall purpose phone fax,
          formattedAddress
            (Address.mk purpose None None (Some "Springfield") None None phone fax)
          = "N/A").
Proof.
  intros Date_parse formatLong npi r. split; [|split].
  - unfold processNpiResult, addressesOf. cbn [Processed.address].
    rewrite formattedAddress_spec. reflexivity.
  - intros. reflexivity.
  - intros. reflexivity.
Qed.

(** C9.  Sex mapping.  For a record classified Individual the sex field
    maps the raw code "F" to "Female" and "M" to "Male", passes any other
    non-empty code through verbatim, and is "N/A" when the raw code is the
    empty string or absent; for a record classified Organization it is
    always "N/A". *)
Theorem sex_mapping :
  forall (Date_parse : string -> option Z) (formatLong : Z -> string)
         (npi : string) (r : Raw.t),
    let out := processNpiResult Date_parse formatLong npi r in
    let code := Basic.sex (basicOf r) in
    (Individual r ->
       (code = Some "F" -> Processed.sex out = Some "Female")
       /\ (code = Some "M" -> Processed.sex out = Some "Male")
       /\ (forall s, code = Some s -> s <> "" -> s <> "F" -> s <> "M" ->
             Processed.sex out = Some s)
       /\ (code = Some "" \/ code = None -> Processed.sex out = Some "N/A"))
    /\ (~ Individual r -> Processed.sex out = Some "N/A").
Proof.
  intros Date_parse formatLong npi r. cbv zeta.
  unfold processNpiResult, Individual, basicOf. cbn [Processed.sex].
  split.
  - intros Hind. rewrite Hind. change (String.eqb "NPI-1" "NPI-1") with true.
    unfold sexValue. cbn [andb].
    set (code := Basic.sex (default Basic.empty (Raw.basic r))).
    repeat split.
    + intros ->. reflexivity.
    + intros ->. reflexivity.
    + intros s -> Hne HF HM. simpl.
      destruct (String.eqb_spec s ""); [contradiction|]. simpl.
      destruct (String.eqb_spec s "F"); [contradiction|].
      destruct (String.eqb_spec s "M"); [contradiction|]. reflexivity.
    + intros [-> | ->]; reflexivity.
  - intros Hnot.
    destruct (String.eqb_spec (Raw.enumeration_type r) "NPI-1"); [contradiction|].
    reflexivity.
Qed.

(** One individual, whose raw sex code is "F", witnesses C9. *)
Lemma sex_mapping_witness :
  Individual Sample.jane
  /\ Basic.sex (basicOf Sample.jane) = Some "F"
  /\ Processed.sex (UtcEngine.processNpiResult "1306849806" Sample.jane)
     = Some "Female".
Proof.
  split; [reflexivity|]. split; [reflexivity|].
  exact (proj1 (proj1 (sex_mapping UtcEngine.Date_parse UtcEngine.formatLong
                         "1306849806" Sample.jane) eq_refl) eq_refl).
Defined.

(** C10.  When more than one taxonomy entry is flagged primary, the
    normalizer selects the earliest flagged entry in sequence order: an
    entry flagged primary that no flagged entry precedes is the selected
    one, whatever follows it. *)
Theorem earliest_primary_taxonomy :
  forall (Date_parse : string -> option Z) (formatLong : Z -> string)
         (npi : string) (r : Raw.t)
         (before after : list Taxonomy.t) (t : Taxonomy.t),
    taxonomiesOf r = before ++ t :: after ->
    Forall (fun u => ~ Primary u) before ->
    Primary t ->
    let out := processNpiResult Date_parse formatLong npi r in
    selectTaxonomy (taxonomiesOf r) = t
    /\ Processed.specialty out = Some (orNA (Taxonomy.desc t))
    /\ Processed.license out = Some (orNA (Taxonomy.license t))
    /\ Processed.licenseState out = Some (orNA (Taxonomy.state t)).
Proof.
  intros Date_parse formatLong npi r before after t Hl Hbefore Ht. cbv zeta.
  assert (selectTaxonomy (taxonomiesOf r) = t) as Hsel.
  { rewrite Hl. unfold selectTaxonomy.
    rewrite (find_first isPrimary before after t); [reflexivity| |].
    - eapply Forall_impl; [exact Hbefore|]. intros u Hu. cbv beta in *.
      destruct (isPrimary u) eqn:E; [|reflexivity].
      apply isPrimary_spec in E. contradiction.
    - apply isPrimary_spec, Ht. }
  split; [exact Hsel|].
  unfold processNpiResult.
  cbn [Processed.specialty Processed.license Processed.licenseState].
  unfold taxonomiesOf in Hsel. rewrite Hsel, !orStr_NA.
  repeat split; reflexivity.
Qed.

(** A record with two entries flagged primary, the first of them in second
    position, witnesses C10. *)
Lemma earliest_primary_taxonomy_witness :
  taxonomiesOf Sample.jane = [Sample.secondary] ++ Sample.cardiology :: [Sample.nephrology]
  /\ Primary Sample.cardiology /\ Primary Sample.nephrology
  /\ Processed.specialty (UtcEngine.processNpiResult "1306849806" Sample.jane)
     = Some "Cardiology".
Proof.
  split; [reflexivity|]. split; [reflexivity|]. split; [reflexivity|].
  refine (proj1 (proj2 (earliest_primary_taxonomy UtcEngine.Date_parse
                          UtcEngine.formatLong "1306849806" Sample.jane
                          [Sample.secondary] [Sample.nephrology] Sample.cardiology
                          eq_refl _ eq_refl))).
  constructor; [discriminate | constructor].
Defined.

(** The name of an individual, by cases on the three deciding parts. *)
Lemma providerName_individual (b : Basic.t) :
  providerName true b = if decide (NamePartsAbsent b) then "N/A" else composedName b.
Proof.
  unfold providerName, composedName, NamePartsAbsent.
  rewrite !truthy_decide, !orStr_empty.
  destruct (decide (absent (Basic.name_prefix b) /\ absent (Basic.first_name b)
                    /\ absent (Basic.last_name b))) as [(Hp & Hf & Hl)|Hsome].
  - rewrite !bool_decide_eq_false_2 by tauto. reflexivity.
  - assert (bool_decide (~ absent (Basic.name_prefix b))
            || bool_decide (~ absent (Basic.first_name b))
            || bool_decide (~ absent (Basic.last_name b)) = true) as ->.
    { rewrite !orb_true_iff, !bool_decide_eq_true.
      destruct (decide (absent (Basic.name_prefix b))); [|tauto].
      destruct (decide (absent (Basic.first_name b))); [|tauto].
      right. intros Hl. apply Hsome. tauto. }
    destruct (decide (absent (Basic.middle_name b))) as [Hm|Hm].
    + rewrite (bool_decide_eq_false_2 (~ absent (Basic.middle_name b))) by tauto.
      reflexivity.
    + rewrite (bool_decide_eq_true_2 (~ absent (Basic.middle_name b))) by tauto.
      reflexivity.
Qed.

(** C6, as stated, fails: an individual whose first name is the text
    "N/A" is displayed as "N/A" although a name part is present. *)
Lemma name_NA_with_a_part_present :
  Individual Sample.namedNA
  /\ ~ (Processed.name (UtcEngine.processNpiResult "1234567890" Sample.namedNA)
        = Some "N/A"
        <-> NamePartsAbsent (basicOf Sample.namedNA)).
Proof.
  split; [reflexivity|]. intros [Hto _].
  destruct (Hto eq_refl) as (_ & [Hf|Hf] & _); discriminate Hf.
Qed.

(** C6, amended.  For a record classified Individual the display name is
    "N/A" when prefix, first name and last name are all absent (undefined
    or empty), and otherwise it is
    trim(prefix + " " + first + " " + (middle + " " if present) + last),
    absent parts reading as empty; for a record classified Organization it
    is the organization name, or "N/A" if that is absent. *)
Theorem name_composition :
  forall (Date_parse : string -> option Z) (formatLong : Z -> string)
         (npi : string) (r : Raw.t),
    let out := processNpiResult Date_parse formatLong npi r in
    (Individual r ->
       (NamePartsAbsent (basicOf r) -> Processed.name out = Some "N/A")
       /\ (~ NamePartsAbsent (basicOf r) ->
           Processed.name out = Some (composedName (basicOf r))))
    /\ (~ Individual r ->
        Processed.name out = Some (orNA (Basic.organization_name (basicOf r)))).
Proof.
  intros Date_parse formatLong npi r. cbv zeta.
  unfold processNpiResult, Individual, basicOf. cbn [Processed.name].
  split.
  - intros Hind. rewrite Hind. change (String.eqb "NPI-1" "NPI-1") with true.
    rewrite providerName_individual. split; intros H.
    + rewrite decide_True by assumption. reflexivity.
    + rewrite decide_False by assumption. reflexivity.
  - intros Hnot.
    destruct (String.eqb_spec (Raw.enumeration_type r) "NPI-1"); [contradiction|].
    unfold providerName. rewrite orStr_NA. reflexivity.
Qed.

(** An individual with all four name parts witnesses the amended C6. *)
Lemma name_composition_witness :
  Individual Sample.jane
  /\ ~ NamePartsAbsent (basicOf Sample.jane)
  /\ Processed.name (UtcEngine.processNpiResult "1306849806" Sample.jane)
     = Some "Dr. Jane Q Public".
Proof.
  split; [reflexivity|].
  assert (~ NamePartsAbsent (basicOf Sample.jane)) as Hparts.
  { intros ([H|H] & _); discriminate H. }
  split; [exact Hparts|].
  exact (proj2 (proj1 (name_composition UtcEngine.Date_parse UtcEngine.formatLong
                         "1306849806" Sample.jane) eq_refl) Hparts).
Defined.

(** The last-updated field, by cases. *)
Lemma lastUpdatedValue_spec (Date_parse : string -> option Z)
    (formatLong : Z -> string) (b : Basic.t) :
  lastUpdatedValue Date_parse formatLong b
  = if decide (absent (Basic.last_updated b)) then "N/A"
    else match Date_parse (textOf (Basic.last_updated b)) with
         | Some t => formatLong t
         | None => "Invalid Date"
         end.
Proof.
  unfold lastUpdatedValue, newDate, toLocaleDateString.
  rewrite truthy_decide, orStr_empty.
  destruct (decide (absent (Basic.last_updated b))) as [Ha|Ha].
  - rewrite bool_decide_eq_false_2 by tauto. reflexivity.
  - rewrite bool_decide_eq_true_2 by assumption.
    destruct (Date_parse (textOf (Basic.last_updated b))); reflexivity.
Qed.

(** C7, on the code.  The last-updated field is "N/A" when the raw field
    is absent and the long calendar date when the raw timestamp parses;
    when the raw timestamp does not parse, no error is thrown, the catch
    clause is not entered, and the field reads "Invalid Date" instead of
    the raw string. *)
Theorem last_updated_display :
  forall (Date_parse : string -> option Z) (formatLong : Z -> string)
         (npi : string) (r : Raw.t),
    let out := processNpiResult Date_parse formatLong npi r in
    let raw := Basic.last_updated (basicOf r) in
    (absent raw -> Processed.lastUpdated out = Some "N/A")
    /\ (forall s t, raw = Some s -> s <> "" -> Date_parse s = Some t ->
          Processed.lastUpdated out = Some (formatLong t))
    /\ (forall s, raw = Some s -> s <> "" -> Date_parse s = None ->
          Processed.lastUpdated out = Some "Invalid Date").
Proof.
  intros Date_parse formatLong npi r. cbv zeta.
  unfold processNpiResult, basicOf. cbn [Processed.lastUpdated].
  rewrite lastUpdatedValue_spec.
  split; [|split].
  - intros Ha. rewrite decide_True by assumption. reflexivity.
  - intros s t Hraw Hs Hparse. rewrite Hraw.
    rewrite decide_False by (intros [H|H]; congruence).
    unfold textOf, default, id. rewrite Hparse. reflexivity.
  - intros s Hraw Hs Hparse. rewrite Hraw.
    rewrite decide_False by (intros [H|H]; congruence).
    unfold textOf, default, id. rewrite Hparse. reflexivity.
Qed.

(** A record whose raw timestamp is the text "unknown" is displayed with
    "Invalid Date". *)
Lemma last_updated_display_witness :
  Basic.last_updated (basicOf Sample.clinic) = Some "unknown"
  /\ UtcEngine.Date_parse "unknown" = None
  /\ Processed.lastUpdated (UtcEngine.processNpiResult "1234567890" Sample.clinic)
     = Some "Invalid Date".
Proof.
  split; [reflexivity|]. split; [reflexivity|].
  refine (proj2 (proj2 (last_updated_display UtcEngine.Date_parse
                          UtcEngine.formatLong "1234567890" Sample.clinic))
            "unknown" eq_refl _ eq_refl).
  discriminate.
Defined.

(** * The claims about the dispatcher *)

Lemma permutation_covers (order : list nat) (n : nat) :
  order ≡ₚ seq 0 n -> forall j, (j < n)%nat -> j ∈ order.
Proof. intros Hperm j Hj. rewrite Hperm. apply elem_of_seq. lia. Qed.

Lemma batchRecords_npi (Date_parse : string -> option Z) (formatLong : Z -> string)
    (network : nat -> string -> FetchOutcome) (npis : list string) :
  Processed.npi <$> batchRecords Date_parse formatLong network npis = npis.
Proof.
  unfold batchRecords. rewrite fmap_imap.
  rewrite (imap_ext _ (const id)).
  - rewrite imap_const. apply list_fmap_id.
  - intros i npi _. apply displayRecord_npi.
Qed.

Lemma batchRecords_lookup (Date_parse : string -> option Z) (formatLong : Z -> string)
    (network : nat -> string -> FetchOutcome) (npis : list string)
    (i : nat) (npi : string) :
  npis !! i = Some npi ->
  batchRecords Date_parse formatLong network npis !! i
  = Some (displayRecord Date_parse formatLong npi
            (classify (network i (registryUrl npi)))).
Proof.
  intros Hi. unfold batchRecords. rewrite list_lookup_imap, Hi. reflexivity.
Qed.

Lemma npiList_sublist (npiParam : string) :
  npiList npiParam `sublist_of` (Js.trim <$> Js.split "," npiParam).
Proof.
  rewrite npiList_validated. unfold validated.
  etransitivity; [apply sublist_take | apply sublist_filter].
Qed.

(** The run of a GET request with a string parameter, once every lookup
    has settled. *)
Lemma handler_settled (Date_parse : string -> option Z) (formatLong : Z -> string)
    (npiParam : string) (network : nat -> string -> FetchOutcome) (order : list nat) :
  order ≡ₚ seq 0 (length (npiList npiParam)) ->
  let run := handler Date_parse formatLong
               (Request.mk "GET" (QString npiParam)) network order in
  is_Some (Run.response run)
  /\ recordsOf run = batchRecords Date_parse formatLong network (npiList npiParam)
  /\ Run.outbound run = registryUrl <$> npiList npiParam
  /\ (npiList npiParam <> [] -> statusOf run = Some 200%nat).
Proof.
  intros Hperm. cbv zeta.
  destruct (decide (npiList npiParam = [])) as [Hnil|Hne].
  - rewrite handler_no_valid by assumption. rewrite Hnil.
    repeat split; [eexists; reflexivity | contradiction].
  - rewrite handler_batch; [|assumption|apply permutation_covers, Hperm].
    repeat split. eexists; reflexivity.
Qed.

(** C1.  For every comma-delimited identifier string, once the lookups
    have settled, in whatever order, the dispatcher has answered with
    exactly one record per surviving identifier: the identifiers of the
    records are the survivors, in their order, which is the order of the
    candidates in the input; each record is the one of the lookup at its
    own position; one request went out per survivor. *)
Theorem one_record_per_identifier_in_order :
  forall (Date_parse : string -> option Z) (formatLong : Z -> string)
         (npiParam : string) (network : nat -> string -> FetchOutcome)
         (order : list nat),
    order ≡ₚ seq 0 (length (npiList npiParam)) ->
    let run := handler Date_parse formatLong
                 (Request.mk "GET" (QString npiParam)) network order in
    is_Some (Run.response run)
    /\ length (recordsOf run) = length (npiList npiParam)
    /\ Processed.npi <$> recordsOf run = npiList npiParam
    /\ npiList npiParam `sublist_of` (Js.trim <$> Js.split "," npiParam)
    /\ recordsOf run = batchRecords Date_parse formatLong network (npiList npiParam)
    /\ Run.outbound run = registryUrl <$> npiList npiParam.
Proof.
  intros Date_parse formatLong npiParam network order Hperm. cbv zeta.
  destruct (handler_settled Date_parse formatLong npiParam network order Hperm)
    as (Hresp & Hrec & Hout & _).
  split; [exact Hresp|]. rewrite Hrec.
  split; [unfold batchRecords; apply length_imap|].
  split; [apply batchRecords_npi|].
  split; [apply npiList_sublist|].
  split; [reflexivity | exact Hout].
Qed.

(** Two lookups that settle in reverse order witness C1. *)
Lemma one_record_per_identifier_in_order_witness :
  [1; 0]%nat ≡ₚ seq 0 (length (npiList "1417005489,bad,1306849806"))
  /\ Processed.npi
       <$> recordsOf (UtcEngine.handler (Sample.get "1417005489,bad,1306849806")
                        Sample.network [1; 0]%nat)
     = npiList "1417005489,bad,1306849806".
Proof.
  assert ([1; 0]%nat ≡ₚ seq 0 (length (npiList "1417005489,bad,1306849806")))
    as Hperm by apply Permutation_swap.
  split; [exact Hperm|].
  exact (proj1 (proj2 (proj2 (one_record_per_identifier_in_order
                                UtcEngine.Date_parse UtcEngine.formatLong
                                "1417005489,bad,1306849806" Sample.network
                                [1; 0]%nat Hperm)))).
Defined.

(** C2.  Validation splits the parameter at its commas, trims each
    candidate, keeps exactly the candidates of ten decimal digits, and
    keeps the first ten of those in their order; when none survives the
    dispatcher answers 400 with an error and issues no outbound request. *)
Theorem validation_of_identifiers :
  forall (Date_parse : string -> option Z) (formatLong : Z -> string)
         (npiParam : string) (network : nat -> string -> FetchOutcome)
         (order : list nat),
    let pieces := Js.split "," npiParam in
    let run := handler Date_parse formatLong
                 (Request.mk "GET" (QString npiParam)) network order in
    Js.join "," pieces = npiParam
    /\ Forall (fun p => Forall (fun c => c <> ","%char) (list_ascii_of_string p)) pieces
    /\ Forall2 TrimOf pieces (Js.trim <$> pieces)
    /\ npiList npiParam = take 10 (filter TenDigits (Js.trim <$> pieces))
    /\ (npiList npiParam = [] ->
        statusOf run = Some 400%nat
        /\ errorOf run = Some (if decide (npiParam = "")
                               then "Missing or invalid NPI parameter"
                               else "No valid NPI numbers provided")
        /\ recordsOf run = []
        /\ Run.outbound run = []).
Proof.
  intros Date_parse formatLong npiParam network order. cbv zeta.
  split; [apply join_split|].
  split.
  { eapply Forall_impl; [apply split_pieces|]. intros p Hp. cbv beta in Hp.
    apply all_Forall in Hp. eapply Forall_impl; [exact Hp|].
    intros c Hc Heq. cbv beta in Hc. subst c. discriminate Hc. }
  split.
  { apply Forall2_fmap_r, Forall_Forall2_diag, Forall_forall.
    intros p _. apply trim_spec. }
  split; [apply npiList_validated|].
  intros Hnil. rewrite handler_no_valid by assumption.
  repeat split.
Qed.

(** A parameter without a valid candidate witnesses C2. *)
Lemma validation_of_identifiers_witness :
  npiList "bad, 12345 ,12345678901" = []
  /\ Run.outbound (UtcEngine.handler (Sample.get "bad, 12345 ,12345678901")
                     Sample.network [])
     = [].
Proof.
  split; [reflexivity|].
  exact (proj2 (proj2 (proj2
           (proj2 (proj2 (proj2 (proj2
              (validation_of_identifiers UtcEngine.Date_parse UtcEngine.formatLong
                 "bad, 12345 ,12345678901" Sample.network [])))) eq_refl)))).
Defined.

Lemma FailsWith_classify (o : FetchOutcome) (msg : string) :
  FailsWith o msg -> failureMessage (classify o) = Some msg.
Proof.
  intros [| |status payload Hst|status|status|status Hst|status Hst];
    unfold classify; try reflexivity.
  - rewrite decide_False by assumption. reflexivity.
  - destruct (decide (200 <= status <= 299)%nat); reflexivity.
  - destruct (decide (200 <= status <= 299)%nat); reflexivity.
  - rewrite decide_True by assumption. reflexivity.
  - rewrite decide_True by assumption. reflexivity.
Qed.

Lemma displayRecord_failure (Date_parse : string -> option Z)
    (formatLong : Z -> string) (npi : string) (l : Lookup) (msg : string) :
  failureMessage l = Some msg ->
  displayRecord Date_parse formatLong npi l = Processed.failure npi msg.
Proof. destruct l; simpl; intros H; inversion H; reflexivity. Qed.

(** The outcome, of a lookup that has failed, with zero results. *)
Lemma FailsWith_not_found (o : FetchOutcome) (msg : string) :
  FailsWith o msg ->
  (msg = "Not found"
   <-> exists status results,
         o = Responded status (Envelope results)
         /\ (200 <= status <= 299)%nat
         /\ (results = None \/ results = Some [])).
Proof.
  intros [| |status payload Hst|status|status|status Hst|status Hst]; split;
    try discriminate.
  - intros (s & rs & Ho & _). discriminate Ho.
  - intros (s & rs & Ho & _). discriminate Ho.
  - intros (s & rs & Ho & Hs & _). injection Ho as -> _. contradiction.
  - intros (s & rs & Ho & _). discriminate Ho.
  - intros (s & rs & Ho & _). discriminate Ho.
  - intros _. exists status, None. auto.
  - reflexivity.
  - intros _. exists status, (Some []). auto.
  - reflexivity.
Qed.

Lemma FailsWith_timeout (o : FetchOutcome) (msg : string) :
  FailsWith o msg -> (msg = "Request timed out" <-> o = Aborted).
Proof.
  intros [| |status payload Hst|status|status|status Hst|status Hst]; split;
    (reflexivity || discriminate).
Qed.

Lemma FailsWith_generic (o : FetchOutcome) (msg : string) :
  FailsWith o msg ->
  o = NetworkFailure
  \/ (exists status payload,
        o = Responded status payload
        /\ (~ (200 <= status <= 299)%nat \/ payload = Malformed \/ payload = JsonNull)) ->
  msg = "Failed to retrieve provider data".
Proof.
  intros [| |status payload Hst|status|status|status Hst|status Hst];
    try reflexivity.
  - intros [Ho|(s & p & Ho & _)]; discriminate Ho.
  - intros [Ho|(s & p & Ho & [Hs|[Hp|Hp]])]; try discriminate Ho;
      injection Ho as Hs' Hp'; subst; try contradiction; discriminate.
  - intros [Ho|(s & p & Ho & [Hs|[Hp|Hp]])]; try discriminate Ho;
      injection Ho as Hs' Hp'; subst; try contradiction; discriminate.
Qed.

(** C3.  A lookup that fails (timeout, transport failure, non-2xx
    response, malformed payload, zero results) yields an error record for
    its identifier alone: the batch is answered with status 200; the
    record at the position of the failed lookup carries the identifier,
    the message of the failure in its error field, and none of the ten
    display fields; every sibling record is the one of the sibling's own
    lookup, and a sibling whose lookup succeeds is displayed in full.
    The error field reads "Request timed out" exactly when the lookup
    timed out, "Not found" exactly when the registry answered with zero
    results, and "Failed to retrieve provider data" for a transport
    failure, a non-2xx response and a malformed payload; the three texts
    differ. *)
Theorem failed_lookup_is_isolated :
  forall (Date_parse : string -> option Z) (formatLong : Z -> string)
         (npiParam : string) (network : nat -> string -> FetchOutcome)
         (order : list nat) (i : nat) (npi msg : string),
    order ≡ₚ seq 0 (length (npiList npiParam)) ->
    npiList npiParam !! i = Some npi ->
    FailsWith (network i (registryUrl npi)) msg ->
    let run := handler Date_parse formatLong
                 (Request.mk "GET" (QString npiParam)) network order in
    let outcome := network i (registryUrl npi) in
    statusOf run = Some 200%nat
    /\ recordsOf run !! i = Some (Processed.failure npi msg)
    /\ (exists r,
          recordsOf run !! i = Some r
          /\ Processed.npi r = npi
          /\ Processed.error r = Some msg
          /\ (Processed.name r = None /\ Processed.entityType r = None
              /\ Processed.sex r = None /\ Processed.specialty r = None
              /\ Processed.license r = None /\ Processed.licenseState r = None
              /\ Processed.phone r = None /\ Processed.fax r = None
              /\ Processed.address r = None /\ Processed.lastUpdated r = None)
          /\ (Processed.error r = Some "Request timed out" <-> outcome = Aborted)
          /\ (Processed.error r = Some "Not found"
              <-> exists status results,
                    outcome = Responded status (Envelope results)
                    /\ (200 <= status <= 299)%nat
                    /\ (results = None \/ results = Some []))
          /\ (outcome = NetworkFailure
              \/ (exists status payload,
                    outcome = Responded status payload
                    /\ (~ (200 <= status <= 299)%nat
                        \/ payload = Malformed \/ payload = JsonNull)) ->
              Processed.error r = Some "Failed to retrieve provider data"))
    /\ (forall j npi', j <> i -> npiList npiParam !! j = Some npi' ->
          recordsOf run !! j
          = Some (displayRecord Date_parse formatLong npi'
                    (classify (network j (registryUrl npi')))))
    /\ (forall j npi' status result rest,
          j <> i -> npiList npiParam !! j = Some npi' ->
          (200 <= status <= 299)%nat ->
          network j (registryUrl npi')
          = Responded status (Envelope (Some (result :: rest))) ->
          exists r',
            recordsOf run !! j = Some r'
            /\ r' = processNpiResult Date_parse formatLong npi' result
            /\ Processed.npi r' = npi' /\ Processed.error r' = None)
    /\ ("Request timed out" <> "Failed to retrieve provider data"
        /\ "Request timed out" <> "Not found"
        /\ "Not found" <> "Failed to retrieve provider data")
    /\ (forall msg', FailsWith Aborted msg' ->
          msg' = "Request timed out" /\ msg' <> "Failed to retrieve provider data")
    /\ (forall status msg', (200 <= status <= 299)%nat ->
          FailsWith (Responded status (Envelope (Some []))) msg' -> msg' = "Not found").
Proof.
  intros Date_parse formatLong npiParam network order i npi msg Hperm Hi Hfail.
  cbv zeta.
  destruct (handler_settled Date_parse formatLong npiParam network order Hperm)
    as (_ & Hrec & _ & Hstatus).
  assert (recordsOf (handler Date_parse formatLong
                       (Request.mk "GET" (QString npiParam)) network order) !! i
          = Some (Processed.failure npi msg)) as Hrecord.
  { rewrite Hrec, (batchRecords_lookup _ _ _ _ i npi) by assumption.
    f_equal. apply displayRecord_failure, FailsWith_classify, Hfail. }
  split.
  { apply Hstatus. intros Hnil. rewrite Hnil in Hi. discriminate Hi. }
  split; [exact Hrecord|].
  split.
  { exists (Processed.failure npi msg).
    split; [exact Hrecord|]. split; [reflexivity|]. split; [reflexivity|].
    split; [repeat split|].
    cbn [Processed.failure Processed.error].
    split; [|split].
    - rewrite <- (FailsWith_timeout _ _ Hfail). split; congruence.
    - rewrite <- (FailsWith_not_found _ _ Hfail). split; congruence.
    - intros Hkind. f_equal. exact (FailsWith_generic _ _ Hfail Hkind). }
  split.
  { intros j npi' _ Hj. rewrite Hrec. apply batchRecords_lookup, Hj. }
  split.
  { intros j npi' status result rest _ Hj Hst Hnet.
    eexists. split; [|split; [reflexivity|split; reflexivity]].
    rewrite Hrec, (batchRecords_lookup _ _ _ _ j npi') by assumption.
    rewrite Hnet. unfold classify. rewrite decide_True by assumption.
    reflexivity. }
  split; [repeat split; discriminate|].
  split.
  { intros msg' H. inversion H; subst. split; [reflexivity | discriminate]. }
  intros status msg' Hst H. inversion H; subst; [contradiction | reflexivity].
Qed.

(** A batch whose first lookup times out while the second succeeds
    witnesses C3. *)
Lemma failed_lookup_is_isolated_witness :
  [1; 0]%nat ≡ₚ seq 0 (length (npiList "1417005489,bad,1306849806"))
  /\ npiList "1417005489,bad,1306849806" !! 0%nat = Some "1417005489"
  /\ FailsWith (Sample.network 0 (registryUrl "1417005489")) "Request timed out"
  /\ exists r,
       recordsOf (UtcEngine.handler (Sample.get "1417005489,bad,1306849806")
                    Sample.network [1; 0]%nat) !! 0%nat = Some r
       /\ Processed.npi r = "1417005489"
       /\ Processed.error r = Some "Request timed out".
Proof.
  assert ([1; 0]%nat ≡ₚ seq 0 (length (npiList "1417005489,bad,1306849806")))
    as Hperm by apply Permutation_swap.
  split; [exact Hperm|]. split; [reflexivity|]. split; [apply fails_timeout|].
  destruct (proj1 (proj2 (proj2 (failed_lookup_is_isolated
                                   UtcEngine.Date_parse UtcEngine.formatLong
                                   "1417005489,bad,1306849806" Sample.network
                                   [1; 0]%nat 0%nat "1417005489" "Request timed out"
                                   Hperm eq_refl fails_timeout))))
    as (r & Hr & Hnpi & Herr & _).
  exists r. split; [exact Hr|]. split; [exact Hnpi | exact Herr].
Defined.




(** * Worked examples *)

Example npiList_scenario :
  npiList "1417005489,bad, 1306849806 " = ["1417005489"; "1306849806"].
Proof. reflexivity. Qed.

Example npiList_truncates :
  npiList "0000000001,0000000002,0000000003,0000000004,0000000005,0000000006,0000000007,0000000008,0000000009,0000000010,0000000011,0000000012"
  = ["0000000001"; "0000000002"; "0000000003"; "0000000004"; "0000000005";
     "0000000006"; "0000000007"; "0000000008"; "0000000009"; "0000000010"].
Proof. reflexivity. Qed.

Example split_keeps_empty_pieces : Js.split "," ",a,," = [""; "a"; ""; ""].
Proof. reflexivity. Qed.

Example utc_parse : UtcEngine.Date_parse "2007-07-08" = Some 1183852800000%Z.
Proof. vm_compute. reflexivity. Qed.

Example utc_format : UtcEngine.formatLong 1183852800000 = "July 8, 2007".
Proof. vm_compute. reflexivity. Qed.

Example utc_parse_bad : UtcEngine.Date_parse "unknown" = None.
Proof. vm_compute. reflexivity. Qed.

(** The first lookup times out, the second succeeds, the third finds
    nothing and the fourth meets a server error; the lookups settle in the
    order 1, 0, 3, 2. *)
Example mixed_batch :
  recordsOf (UtcEngine.handler
               (Sample.get "1417005489,bad,1306849806, 1234567890,0000000000")
               Sample.network [1; 0; 3; 2]%nat)
  = [Processed.failure "1417005489" "Request timed out";
     Processed.mk "1306849806" (Some "Dr. Jane Q Public") (Some "Individual")
       (Some "Female") (Some "Cardiology") (Some "B2") (Some "IL")
       (Some "217-555-0100") (Some "N/A")
       (Some "123 Main St, Springfield, IL 62704") (Some "July 8, 2007") None;
     Processed.failure "1234567890" "Not found";
     Processed.failure "0000000000" "Failed to retrieve provider data"].
Proof. vm_compute. reflexivity. Qed.

(** While a lookup has not settled, no response is sent. *)
Example pending_batch :
  Run.response (UtcEngine.handler (Sample.get "1417005489,1306849806")
                  Sample.network [1]%nat) = None.
Proof. vm_compute. reflexivity. Qed.

Example organization_record :
  UtcEngine.processNpiResult "1234567890" Sample.clinic
  = Processed.mk "1234567890" (Some "Main Street Clinic") (Some "Organization")
      (Some "N/A") (Some "N/A") (Some "N/A") (Some "N/A") (Some "N/A")
      (Some "N/A") (Some "N/A") (Some "Invalid Date") None.
Proof. vm_compute. reflexivity. Qed.

Example wrong_method :
  statusOf (UtcEngine.handler (Request.mk "POST" (QString "1417005489"))
              Sample.network []) = Some 405%nat.
Proof. reflexivity. Qed.

Example array_parameter :
  errorOf (UtcEngine.handler (Request.mk "GET" (QArray ["1417005489"]))
             Sample.network []) = Some "Missing or invalid NPI parameter".
Proof. reflexivity. Qed.

(** * Further properties of the handler *)

Lemma AllSettled_covers (order : list nat) (n : nat) :
  AllSettled order n <-> forall j, (j < n)%nat -> j ∈ order.
Proof.
  unfold AllSettled. rewrite Forall_forall. split.
  - intros H j Hj. apply H, elem_of_seq. lia.
  - intros H j Hj. apply elem_of_seq in Hj. apply H. lia.
Qed.

(** The run of a GET request with a surviving identifier, whatever the
    settling order: the requests are all out; the response is sent once
    every lookup has settled and not before. *)
Lemma handler_get (Date_parse : string -> option Z) (formatLong : Z -> string)
    (npiParam : string) (network : nat -> string -> FetchOutcome) (order : list nat) :
  npiList npiParam <> [] ->
  handler Date_parse formatLong (Request.mk "GET" (QString npiParam)) network order
  = Run.mk
      (if decide (AllSettled order (length (npiList npiParam)))
       then Some (Response.mk corsHeaders 200%nat
                    (ApiResponse.success
                       (batchRecords Date_parse formatLong network (npiList npiParam))))
       else None)
      (registryUrl <$> npiList npiParam).
Proof.
  intros Hne.
  destruct (decide (AllSettled order (length (npiList npiParam)))) as [Hall|Hsome].
  - apply handler_batch; [assumption | apply AllSettled_covers, Hall].
  - unfold handler. cbn [Request.method Request.query_npi].
    change (String.eqb "GET" "GET") with true. cbn [negb].
    destruct (String.eqb_spec npiParam "") as [->|_]; [contradiction|].
    destruct (npiList npiParam) as [|n ns] eqn:El; [contradiction|].
    cbn [length Nat.eqb].
    destruct (calls_spec Date_parse formatLong network (n :: ns)) as [Hsent Hres].
    cbv zeta in Hsent, Hres. rewrite Hsent, Hres.
    apply not_Forall_Exists in Hsome; [|intros j; apply _].
    apply Exists_exists in Hsome as (j & Hj & Hnot).
    apply elem_of_seq in Hj.
    rewrite (all_pending _ order j); [reflexivity| |assumption].
    unfold batchRecords. rewrite length_imap. cbn [length] in Hj |- *. lia.
Qed.

Lemma method_decide (req : Request.t) :
  negb (String.eqb (Request.method req) "GET")
  = bool_decide (Request.method req <> "GET").
Proof.
  destruct (String.eqb_spec (Request.method req) "GET") as [H|H]; simpl; symmetry.
  - apply bool_decide_eq_false. tauto.
  - apply bool_decide_eq_true. assumption.
Qed.

(** X1.  The status of every run is the one the guards give: 405 for a
    method other than GET; 400 for a parameter that is missing, not a
    string, or without a valid identifier; 200 once every lookup has
    settled; no response before that.  The handler never answers 500. *)
Theorem handler_status :
  forall (Date_parse : string -> option Z) (formatLong : Z -> string)
         (req : Request.t) (network : nat -> string -> FetchOutcome)
         (order : list nat),
    statusOf (handler Date_parse formatLong req network order)
    = expectedStatus req order
    /\ statusOf (handler Date_parse formatLong req network order) <> Some 500%nat.
Proof.
  intros Date_parse formatLong req network order.
  assert (statusOf (handler Date_parse formatLong req network order)
          = expectedStatus req order) as Hst.
  { unfold expectedStatus. destruct req as [method query].
    cbn [Request.method Request.query_npi].
    destruct (decide (method = "GET")) as [->|Hm].
    - destruct query as [|npiParam|l]; try reflexivity.
      destruct (decide (npiList npiParam = [])) as [Hnil|Hne].
      + rewrite handler_no_valid by assumption. reflexivity.
      + rewrite handler_get by assumption.
        destruct (decide (AllSettled order (length (npiList npiParam))));
          reflexivity.
    - unfold handler. rewrite method_decide. cbn [Request.method].
      rewrite bool_decide_eq_true_2 by assumption. reflexivity. }
  split; [exact Hst|]. rewrite Hst. unfold expectedStatus.
  repeat (case_decide || case_match); discriminate.
Qed.

(** X2.  Whatever the request and the settling order, at most ten
    requests go out, each for an identifier of ten digits, and at most ten
    records come back; for a GET request with a string parameter the
    requests are those of the surviving identifiers, in order, and they
    are all out before any lookup has settled. *)
Theorem outbound_requests :
  forall (Date_parse : string -> option Z) (formatLong : Z -> string)
         (req : Request.t) (network : nat -> string -> FetchOutcome)
         (order : list nat),
    let run := handler Date_parse formatLong req network order in
    Forall (fun url => exists n, TenDigits n /\ url = registryUrl n) (Run.outbound run)
    /\ (length (Run.outbound run) <= 10)%nat
    /\ (length (recordsOf run) <= 10)%nat
    /\ (forall npiParam,
          req = Request.mk "GET" (QString npiParam) ->
          Run.outbound run = registryUrl <$> npiList npiParam
          /\ Run.outbound (handler Date_parse formatLong req network [])
             = Run.outbound run).
Proof.
  intros Date_parse formatLong req network order. cbv zeta.
  assert (forall npiParam order',
            Run.outbound (handler Date_parse formatLong
                            (Request.mk "GET" (QString npiParam)) network order')
            = registryUrl <$> npiList npiParam) as Hout.
  { intros npiParam order'.
    destruct (decide (npiList npiParam = [])) as [Hnil|Hne].
    - rewrite handler_no_valid by assumption. rewrite Hnil. reflexivity.
    - rewrite handler_get by assumption. reflexivity. }
  assert (forall npiParam, Forall TenDigits (npiList npiParam)
                           /\ (length (npiList npiParam) <= 10)%nat) as Hlist.
  { intros npiParam. rewrite npiList_validated. unfold validated. split.
    - apply Forall_take, Forall_forall. intros n Hn.
      apply list_elem_of_filter in Hn. tauto.
    - rewrite length_take. lia. }
  assert (forall (l : list string),
            Forall TenDigits l ->
            Forall (fun url => exists n, TenDigits n /\ url = registryUrl n)
              (registryUrl <$> l)) as Hurls.
  { intros l Hl. apply Forall_fmap. eapply Forall_impl; [exact Hl|].
    intros n Hn. exists n. split; [assumption | reflexivity]. }
  destruct req as [method query].
  destruct (decide (method = "GET")) as [->|Hm].
  - destruct query as [|npiParam|l].
    + split; [constructor|]. split; [simpl; lia|]. split; [simpl; lia|].
      intros p Heq. discriminate Heq.
    + destruct (Hlist npiParam) as [Hten Hlen].
      rewrite !Hout. split; [apply Hurls, Hten|].
      split; [rewrite length_fmap; exact Hlen|].
      split.
      * destruct (decide (npiList npiParam = [])) as [Hnil|Hne].
        -- rewrite handler_no_valid by assumption. simpl. lia.
        -- rewrite handler_get by assumption. case_decide; [|simpl; lia].
           change (length (batchRecords Date_parse formatLong network
                             (npiList npiParam)) <= 10)%nat.
           unfold batchRecords. rewrite length_imap. exact Hlen.
      * intros p Heq. injection Heq as <-. split; reflexivity.
    + split; [constructor|]. split; [simpl; lia|]. split; [simpl; lia|].
      intros p Heq. discriminate Heq.
  - assert (handler Date_parse formatLong (Request.mk method query) network order
            = Run.mk (Some (Response.mk corsHeaders 405%nat
                              (ApiResponse.failure "Method not allowed"))) []) as ->.
    { unfold handler. rewrite method_decide. cbn [Request.method].
      rewrite bool_decide_eq_true_2 by assumption. reflexivity. }
    split; [constructor|]. split; [simpl; lia|]. split; [simpl; lia|].
    intros p Heq. injection Heq as Heq _. contradiction.
Qed.

(** A batch none of whose lookups has settled witnesses X2. *)
Lemma outbound_requests_witness :
  Run.outbound (UtcEngine.handler (Sample.get "1417005489,bad,1306849806")
                  Sample.network [])
  = registryUrl <$> ["1417005489"; "1306849806"].
Proof.
  exact (proj1 (proj2 (proj2 (proj2
           (outbound_requests UtcEngine.Date_parse UtcEngine.formatLong
              (Sample.get "1417005489,bad,1306849806") Sample.network []))) _ eq_refl)).
Defined.

(** The responses the handler can send. *)
Lemma handler_response (Date_parse : string -> option Z) (formatLong : Z -> string)
    (req : Request.t) (network : nat -> string -> FetchOutcome)
    (order : list nat) (resp : Response.t) :
  Run.response (handler Date_parse formatLong req network order) = Some resp ->
  (exists rs, rs <> []
              /\ resp = Response.mk corsHeaders 200%nat (ApiResponse.success rs)
              /\ recordsOf (handler Date_parse formatLong req network order) = rs)
  \/ (exists status msg,
        (status = 400%nat \/ status = 405%nat) /\ msg <> ""
        /\ resp = Response.mk corsHeaders status (ApiResponse.failure msg)).
Proof.
  destruct req as [method query].
  destruct (decide (method = "GET")) as [->|Hm].
  - destruct query as [|npiParam|l].
    + intros [= <-]. right. exists 400%nat. eexists.
      split; [left; reflexivity|]. split; [|reflexivity]. discriminate.
    + destruct (decide (npiList npiParam = [])) as [Hnil|Hne].
      * rewrite handler_no_valid by assumption. intros [= <-].
        right. exists 400%nat. eexists.
        split; [left; reflexivity|]. split; [|reflexivity].
        case_decide; discriminate.
      * rewrite handler_get by assumption. cbn [Run.response].
        unfold recordsOf. cbn [Run.response].
        case_decide; [|discriminate]. intros [= <-].
        left. eexists. split; [|split; reflexivity].
        intros Hnil. apply Hne. apply (f_equal length) in Hnil.
        unfold batchRecords in Hnil. rewrite length_imap in Hnil.
        destruct (npiList npiParam); [reflexivity | discriminate Hnil].
    + intros [= <-]. right. exists 400%nat. eexists.
      split; [left; reflexivity|]. split; [|reflexivity]. discriminate.
  - unfold handler. rewrite method_decide. cbn [Request.method].
    rewrite bool_decide_eq_true_2 by assumption. intros [= <-].
    right. exists 405%nat. eexists.
    split; [right; reflexivity|]. split; [|reflexivity]. discriminate.
Qed.

(** X3.  Every response the handler sends carries the three CORS headers,
    and is either a 200 with a list of at least one record and no error
    message, or a 400 or 405 with a non-empty error message and no list. *)
Theorem response_shape :
  forall (Date_parse : string -> option Z) (formatLong : Z -> string)
         (req : Request.t) (network : nat -> string -> FetchOutcome)
         (order : list nat) (resp : Response.t),
    Run.response (handler Date_parse formatLong req network order) = Some resp ->
    Response.headers resp = corsHeaders
    /\ ((Response.status resp = 200%nat
         /\ exists rs, rs <> [] /\ Response.json resp = ApiResponse.success rs)
        \/ ((Response.status resp = 400%nat \/ Response.status resp = 405%nat)
            /\ exists msg, msg <> "" /\ Response.json resp = ApiResponse.failure msg)).
Proof.
  intros Date_parse formatLong req network order resp Hresp.
  destruct (handler_response _ _ _ _ _ _ Hresp)
    as [(rs & Hne & -> & _)|(status & msg & Hst & Hmsg & ->)].
  - split; [reflexivity|]. left. split; [reflexivity|].
    exists rs. split; [exact Hne | reflexivity].
  - split; [reflexivity|]. right. split; [exact Hst|].
    exists msg. split; [exact Hmsg | reflexivity].
Qed.

(** A request with the wrong method witnesses X3. *)
Lemma response_shape_witness :
  Response.headers
    (Response.mk corsHeaders 405 (ApiResponse.failure "Method not allowed"))
  = corsHeaders.
Proof.
  exact (proj1 (response_shape UtcEngine.Date_parse UtcEngine.formatLong
                  (Request.mk "POST" (QString "1417005489")) Sample.network []
                  _ eq_refl)).
Defined.

Section JoinSplit.

Variable sep : ascii.

Let free (p : string) : Prop := Js.all (fun c => negb (Ascii.eqb c sep)) p = true.

Lemma split_free (p : string) : free p -> Js.split sep p = [p].
Proof.
  unfold free. induction p as [|c p IH]; simpl; [reflexivity|].
  intros H. apply andb_prop in H as [Hc Hp].
  apply negb_true_iff in Hc. rewrite Hc, (IH Hp). reflexivity.
Qed.

Lemma split_free_sep (p rest : string) :
  free p -> Js.split sep (p +:+ String sep rest) = p :: Js.split sep rest.
Proof.
  unfold free. induction p as [|c p IH]; intros H.
  - rewrite append_empty_l. simpl. rewrite Ascii.eqb_refl. reflexivity.
  - simpl in H. apply andb_prop in H as [Hc Hp]. apply negb_true_iff in Hc.
    rewrite append_cons. simpl. rewrite Hc, (IH Hp). reflexivity.
Qed.

(** Splitting undoes joining, for pieces free of the separator. *)
Lemma split_join (l : list string) :
  l <> [] -> Forall free l ->
  Js.split sep (Js.join (String sep EmptyString) l) = l.
Proof.
  intros Hne Hl. induction Hl as [|p l Hp Hl IH]; [contradiction|].
  destruct l as [|q l].
  - simpl. apply split_free, Hp.
  - change (Js.join (String sep "") (p :: q :: l))
      with (p +:+ String sep "" +:+ Js.join (String sep "") (q :: l)).
    change (String sep "" +:+ Js.join (String sep "") (q :: l))
      with (String sep (Js.join (String sep "") (q :: l))).
    rewrite split_free_sep by exact Hp. rewrite IH by discriminate. reflexivity.
Qed.

End JoinSplit.

Lemma digit_not_space (c : ascii) : Js.isDigit c = true -> Js.isWhiteSpace c = false.
Proof. destruct c as [[] [] [] [] [] [] [] []]; vm_compute; congruence. Qed.

Lemma digit_not_comma (c : ascii) :
  Js.isDigit c = true -> negb (Ascii.eqb c ",") = true.
Proof. destruct c as [[] [] [] [] [] [] [] []]; vm_compute; congruence. Qed.

Lemma trimEnd_fixed (s : string) : endsWithSpace s = false -> Js.trimEnd s = s.
Proof.
  induction s as [|c s IH]; [reflexivity|]. intros H. simpl in *.
  destruct s as [|d t].
  - simpl. rewrite H. reflexivity.
  - rewrite (IH H). reflexivity.
Qed.

Lemma trim_fixed (s : string) :
  startsWithSpace s = false -> endsWithSpace s = false -> Js.trim s = s.
Proof.
  intros Hs He. unfold Js.trim.
  assert (Js.trimStart s = s) as ->.
  { destruct s as [|c s]; [reflexivity|]. simpl in *. rewrite Hs. reflexivity. }
  apply trimEnd_fixed, He.
Qed.

Lemma digits_no_space (s : string) :
  Js.all Js.isDigit s = true ->
  startsWithSpace s = false /\ endsWithSpace s = false.
Proof.
  induction s as [|c s IH]; [auto|]. simpl. intros H.
  apply andb_prop in H as [Hc Hs]. apply digit_not_space in Hc.
  split; [exact Hc|]. destruct s as [|d t]; [exact Hc | apply (IH Hs)].
Qed.

Lemma digits_trim (s : string) : Js.all Js.isDigit s = true -> Js.trim s = s.
Proof. intros H. apply digits_no_space in H as [Hs He]. apply trim_fixed; assumption. Qed.

Lemma digits_no_comma (s : string) :
  Js.all Js.isDigit s = true ->
  Js.all (fun c => negb (Ascii.eqb c ",")) s = true.
Proof.
  induction s as [|c s IH]; [reflexivity|]. simpl. intros H.
  apply andb_prop in H as [Hc Hs]. rewrite (digit_not_comma c Hc), (IH Hs).
  reflexivity.
Qed.

Lemma TenDigits_digits (n : string) : TenDigits n -> Js.all Js.isDigit n = true.
Proof.
  intros Hn. apply isValidNpi_spec in Hn. unfold isValidNpi in Hn.
  apply andb_prop in Hn as [_ Hd]. destruct n; [discriminate Hd | exact Hd].
Qed.

Lemma trim_ten_digits (l : list string) :
  Forall TenDigits l -> map Js.trim l = l.
Proof.
  induction 1 as [|m k Hm _ IH]; [reflexivity|].
  simpl. rewrite IH, (digits_trim m) by (apply TenDigits_digits, Hm).
  reflexivity.
Qed.

Lemma filter_ten_digits (l : list string) :
  Forall TenDigits l -> List.filter isValidNpi l = l.
Proof.
  induction 1 as [|m k Hm _ IH]; [reflexivity|].
  simpl. apply isValidNpi_spec in Hm. rewrite Hm, IH. reflexivity.
Qed.

Lemma join_validates (l : list string) :
  l <> [] -> Forall TenDigits l ->
  List.filter isValidNpi (map Js.trim (Js.split "," (Js.join "," l))) = l.
Proof.
  intros Hne Hl. rewrite split_join; [|exact Hne|].
  - rewrite trim_ten_digits by assumption. apply filter_ten_digits, Hl.
  - eapply Forall_impl; [exact Hl|]. intros m Hm.
    apply digits_no_comma, TenDigits_digits, Hm.
Qed.

(** X4.  Validation undoes joining: the parameter made of identifiers of
    ten digits joined by commas validates to those identifiers, in order,
    cut after the tenth.  Nothing is reordered and duplicates are kept. *)
Theorem validation_of_joined_identifiers :
  forall l : list string,
    Forall TenDigits l -> npiList (Js.join "," l) = take 10 l.
Proof.
  intros l Hl. destruct l as [|n l]; [reflexivity|].
  unfold npiList, MAX_NPIS. f_equal.
  apply join_validates; [discriminate | exact Hl].
Qed.

(** The same identifier given twice witnesses X4. *)
Lemma validation_of_joined_identifiers_witness :
  npiList (Js.join "," ["1417005489"; "1417005489"]) = ["1417005489"; "1417005489"].
Proof.
  refine (validation_of_joined_identifiers ["1417005489"; "1417005489"] _).
  repeat constructor.
Defined.

(** X5.  Of the records the registry returns for an identifier only the
    first is used: a 2xx answer with at least one result is displayed as
    the normalized first result, whatever follows it. *)
Theorem first_result_only :
  forall (Date_parse : string -> option Z) (formatLong : Z -> string)
         (network : string -> FetchOutcome) (npi : string)
         (status : nat) (r : Raw.t) (rest : list Raw.t),
    (200 <= status <= 299)%nat ->
    network (registryUrl npi) = Responded status (Envelope (Some (r :: rest))) ->
    fetchNpiData Date_parse formatLong network npi
    = ([registryUrl npi], Js.Normal (processNpiResult Date_parse formatLong npi r)).
Proof.
  intros Date_parse formatLong network npi status r rest Hst Hnet.
  rewrite fetchNpiData_spec, Hnet. unfold classify.
  rewrite decide_True by assumption. reflexivity.
Qed.

(** An answer with two results witnesses X5. *)
Lemma first_result_only_witness :
  UtcEngine.fetchNpiData
    (fun _ => Responded 200 (Envelope (Some [Sample.jane; Sample.clinic])))
    "1306849806"
  = ([registryUrl "1306849806"],
     Js.Normal (UtcEngine.processNpiResult "1306849806" Sample.jane)).
Proof.
  refine (first_result_only UtcEngine.Date_parse UtcEngine.formatLong
            (fun _ => Responded 200 (Envelope (Some [Sample.jane; Sample.clinic])))
            "1306849806" 200 Sample.jane [Sample.clinic] _ eq_refl).
  lia.
Defined.

(** * Further properties of the normalizer *)

(** X6.  A record that carries nothing (no or empty basic data, no
    taxonomy, no address) is displayed with "N/A" in every field but the
    entity type. *)
Theorem bare_record :
  forall (Date_parse : string -> option Z) (formatLong : Z -> string)
         (npi : string) (r : Raw.t),
    basicOf r = Basic.empty -> taxonomiesOf r = [] -> addressesOf r = [] ->
    processNpiResult Date_parse formatLong npi r
    = Processed.mk npi (Some "N/A")
        (Some (if decide (Individual r) then "Individual" else "Organization"))
        (Some "N/A") (Some "N/A") (Some "N/A") (Some "N/A") (Some "N/A")
        (Some "N/A") (Some "N/A") (Some "N/A") None.
Proof.
  intros Date_parse formatLong npi r Hb Ht Ha.
  unfold processNpiResult. unfold basicOf in Hb. unfold taxonomiesOf in Ht.
  unfold addressesOf in Ha. rewrite Hb, Ht, Ha. unfold Individual.
  destruct (String.eqb_spec (Raw.enumeration_type r) "NPI-1") as [He|He].
  - rewrite decide_True by assumption. reflexivity.
  - rewrite decide_False by assumption. reflexivity.
Qed.

(** An organization without any data witnesses X6. *)
Lemma bare_record_witness :
  Processed.name (UtcEngine.processNpiResult "1234567890" (Raw.mk "NPI-2" None None None))
  = Some "N/A".
Proof.
  exact (f_equal Processed.name
           (bare_record UtcEngine.Date_parse UtcEngine.formatLong "1234567890"
              (Raw.mk "NPI-2" None None None) eq_refl eq_refl eq_refl)).
Defined.

(** X7.  The display name of an individual never starts or ends with
    white space, whatever the name parts hold. *)
Theorem individual_name_is_trimmed :
  forall (Date_parse : string -> option Z) (formatLong : Z -> string)
         (npi : string) (r : Raw.t),
    Individual r ->
    exists name,
      Processed.name (processNpiResult Date_parse formatLong npi r) = Some name
      /\ startsWithSpace name = false /\ endsWithSpace name = false.
Proof.
  intros Date_parse formatLong npi r Hind. eexists. split; [reflexivity|].
  unfold Individual in Hind. rewrite Hind.
  change (String.eqb "NPI-1" "NPI-1") with true.
  rewrite providerName_individual. case_decide; [split; reflexivity|].
  unfold composedName.
  match goal with |- context [Js.trim ?s] =>
    destruct (trim_spec s) as (_ & _ & _ & _ & _ & Hs & He) end.
  split; assumption.
Qed.

(** An individual whose name parts are padded with blanks witnesses X7. *)
Lemma individual_name_is_trimmed_witness :
  exists name,
    Processed.name
      (UtcEngine.processNpiResult "1234567890"
         (Raw.mk "NPI-1"
            (Some (Basic.mk (Some "  ") (Some " Ann ") None (Some "Lee  ") None None None))
            None None))
    = Some name
    /\ startsWithSpace name = false /\ endsWithSpace name = false.
Proof.
  exact (individual_name_is_trimmed UtcEngine.Date_parse UtcEngine.formatLong
           "1234567890"
           (Raw.mk "NPI-1"
              (Some (Basic.mk (Some "  ") (Some " Ann ") None (Some "Lee  ") None None None))
              None None)
           eq_refl).
Defined.

Lemma find_elem {A : Type} (f : A -> bool) (l : list A) (x : A) :
  Js.find f l = Some x -> x ∈ l.
Proof.
  unfold Js.find. induction l as [|y l IH]; simpl; [discriminate|].
  destruct (f y).
  - intros [= ->]. apply list_elem_of_here.
  - intros H. apply list_elem_of_further, IH, H.
Qed.

(** X8.  Selection never invents an entry: from a non-empty list the
    selected taxonomy, respectively address, is one of the entries; only
    the empty list gives the placeholder. *)
Theorem selection_is_an_entry :
  forall (taxonomies : list Taxonomy.t) (addresses : list Address.t),
    (taxonomies <> [] -> selectTaxonomy taxonomies ∈ taxonomies)
    /\ (addresses <> [] -> selectAddress addresses ∈ addresses)
    /\ selectTaxonomy [] = Taxonomy.empty
    /\ selectAddress [] = Address.empty.
Proof.
  intros taxonomies addresses. repeat split.
  - intros Hne. unfold selectTaxonomy.
    destruct (Js.find isPrimary taxonomies) as [t|] eqn:Ef.
    + simpl. eapply find_elem, Ef.
    + destruct taxonomies as [|t l]; [contradiction|]. apply list_elem_of_here.
  - intros Hne. unfold selectAddress.
    destruct (Js.find (hasPurpose "LOCATION") addresses) as [a|] eqn:El.
    + simpl. eapply find_elem, El.
    + destruct (Js.find (hasPurpose "MAILING") addresses) as [a|] eqn:Em.
      * simpl. eapply find_elem, Em.
      * destruct addresses as [|a l]; [contradiction|]. apply list_elem_of_here.
Qed.

(** A list without a primary entry witnesses X8. *)
Lemma selection_is_an_entry_witness :
  selectTaxonomy [Sample.secondary] ∈ [Sample.secondary].
Proof.
  refine (proj1 (selection_is_an_entry [Sample.secondary] []) _). discriminate.
Defined.

(** X9.  The fields of the other entity kind are ignored: the display of
    an individual does not depend on the organization name, and the
    display of an organization does not depend on the personal name parts
    or on the sex code. *)
Theorem other_kind_fields_ignored :
  forall (Date_parse : string -> option Z) (formatLong : Z -> string)
         (npi kind : string) (b1 b2 : Basic.t)
         (taxonomies : option (list Taxonomy.t)) (addresses : option (list Address.t)),
    Basic.last_updated b1 = Basic.last_updated b2 ->
    (if decide (kind = "NPI-1") then
       Basic.name_prefix b1 = Basic.name_prefix b2
       /\ Basic.first_name b1 = Basic.first_name b2
       /\ Basic.middle_name b1 = Basic.middle_name b2
       /\ Basic.last_name b1 = Basic.last_name b2
       /\ Basic.sex b1 = Basic.sex b2
     else Basic.organization_name b1 = Basic.organization_name b2) ->
    processNpiResult Date_parse formatLong npi (Raw.mk kind (Some b1) taxonomies addresses)
    = processNpiResult Date_parse formatLong npi (Raw.mk kind (Some b2) taxonomies addresses).
Proof.
  intros Date_parse formatLong npi kind b1 b2 taxonomies addresses Hdate Hsame.
  unfold processNpiResult, lastUpdatedValue.
  cbn [Raw.enumeration_type Raw.basic Raw.taxonomies Raw.addresses].
  change (default Basic.empty (Some b1)) with b1.
  change (default Basic.empty (Some b2)) with b2.
  rewrite Hdate.
  destruct (decide (kind = "NPI-1")) as [->|Hk].
  - destruct Hsame as (Hp & Hf & Hm & Hl & Hs).
    change (String.eqb "NPI-1" "NPI-1") with true.
    unfold providerName, sexValue. rewrite Hp, Hf, Hm, Hl, Hs. reflexivity.
  - destruct (String.eqb_spec kind "NPI-1"); [contradiction|].
    unfold providerName, sexValue. cbn [andb]. rewrite Hsame. reflexivity.
Qed.

(** An individual with and without an organization name witnesses X9. *)
Lemma other_kind_fields_ignored_witness :
  UtcEngine.processNpiResult "1306849806"
    (Raw.mk "NPI-1" (Some Sample.janeBasic) None None)
  = UtcEngine.processNpiResult "1306849806"
      (Raw.mk "NPI-1"
         (Some (Basic.mk (Some "Dr.") (Some "Jane") (Some "Q") (Some "Public")
                  (Some "Public Health LLC") (Some "F") (Some "2007-07-08")))
         None None).
Proof.
  refine (other_kind_fields_ignored UtcEngine.Date_parse UtcEngine.formatLong
            "1306849806" "NPI-1" Sample.janeBasic
            (Basic.mk (Some "Dr.") (Some "Jane") (Some "Q") (Some "Public")
               (Some "Public Health LLC") (Some "F") (Some "2007-07-08"))
            None None eq_refl _).
  repeat split.
Defined.

Lemma part_segments (v : option string) : Forall (fun s => s <> "") (part v).
Proof.
  unfold part. case_decide as Ha; [constructor|].
  constructor; [|constructor]. intros He. apply Ha. unfold absent.
  destruct v as [s|]; [right | left; reflexivity]. simpl in He. congruence.
Qed.

Lemma part_length (v : option string) : (length (part v) <= 1)%nat.
Proof. unfold part. case_decide; simpl; lia. Qed.

(** X10.  When the street line is present, the formatted address is the
    street line followed by at most three further segments, joined by
    ", ", and no segment is empty: there is no dangling separator. *)
Theorem address_segments :
  forall a : Address.t,
    ~ absent (Address.address_1 a) ->
    exists rest,
      formattedAddress a = Js.join ", " (textOf (Address.address_1 a) :: rest)
      /\ Forall (fun s => s <> "") (textOf (Address.address_1 a) :: rest)
      /\ (length rest <= 3)%nat.
Proof.
  intros a Hstreet. rewrite formattedAddress_spec. unfold addressText.
  rewrite decide_False by assumption.
  assert (part (Address.address_1 a) = [textOf (Address.address_1 a)]) as E1.
  { unfold part. rewrite decide_False by assumption. reflexivity. }
  rewrite E1. cbn [app]. eexists. split; [reflexivity|].
  pose proof (part_segments (Address.address_1 a)) as H1. rewrite E1 in H1.
  apply Forall_cons in H1 as [H1 _].
  split.
  - constructor; [exact H1|]. rewrite !Forall_app.
    split; [apply part_segments|]. split; [apply part_segments|].
    case_decide as Hsp.
    + rewrite Forall_app. split; apply part_segments.
    + constructor; [|constructor]. intros He.
      destruct (textOf (Address.state a)) eqn:Es; [|discriminate He].
      apply Hsp. left. unfold absent, textOf in *.
      destruct (Address.state a) as [s|]; [right | left; reflexivity].
      simpl in Es. congruence.
  - rewrite !length_app.
    pose proof (part_length (Address.address_2 a)).
    pose proof (part_length (Address.city a)).
    case_decide as Hsp.
    + rewrite length_app.
      assert (length (part (Address.state a)) + length (part (Address.postal_code a))
              <= 1)%nat; [|lia].
      unfold part. destruct Hsp as [Hs|Hp].
      * rewrite (decide_True (P := absent (Address.state a))) by assumption.
        case_decide; simpl; lia.
      * rewrite (decide_True (P := absent (Address.postal_code a))) by assumption.
        case_decide; simpl; lia.
    + simpl. lia.
Qed.

(** The address of the sample individual witnesses X10. *)
Lemma address_segments_witness :
  exists rest,
    formattedAddress Sample.springfield = Js.join ", " ("123 Main St" :: rest)
    /\ Forall (fun s => s <> "") ("123 Main St" :: rest)
    /\ (length rest <= 3)%nat.
Proof.
  refine (address_segments Sample.springfield _).
  intros [H|H]; discriminate H.
Defined.

(** * Properties of the minimal handler *)

Lemma split_length (sep : ascii) (s : string) :
  length (Js.split sep s) = S (occurrences sep s).
Proof.
  induction s as [|c s IH]; [reflexivity|]. simpl.
  destruct (Ascii.eqb c sep); simpl.
  - rewrite IH. reflexivity.
  - pose proof (split_nonempty sep s) as Hne.
    destruct (Js.split sep s); [contradiction|]. simpl in *. exact IH.
Qed.

(** One lookup of the minimal handler issues exactly one request. *)
Lemma minimal_lookup_log (network : string -> Minimal.Reply) (npi : string) :
  fst (Minimal.lookup network npi) = [registryUrl npi].
Proof.
  unfold Minimal.lookup, Minimal.fetchPlain.
  destruct (network (registryUrl npi)) as [|status payload]; [reflexivity|].
  destruct payload as [| |[[|r rs]|]]; try reflexivity.
  unfold Eff.bind, HttpResponse.json, firstResult, Minimal.display, Minimal.defined.
  cbn [HttpResponse.payload Eff.ret Eff.throw lookup list_lookup].
  destruct (Raw.taxonomies r), (Raw.addresses r), (Raw.basic r); reflexivity.
Qed.

Lemma minimal_lookup_rejects (network : string -> Minimal.Reply) (npi : string) :
  Rejects (network (registryUrl npi)) ->
  exists e, snd (Minimal.lookup network npi) = Js.Throw e.
Proof.
  unfold Minimal.lookup, Minimal.fetchPlain. intros Hrej.
  inversion Hrej as [Heq|status Heq|status Heq|status r rest Hmiss Heq];
    try (eexists; reflexivity).
  unfold Eff.bind, HttpResponse.json, firstResult, Minimal.display, Minimal.defined.
  cbn [HttpResponse.payload Eff.ret Eff.throw lookup list_lookup].
  destruct (Raw.taxonomies r), (Raw.addresses r), (Raw.basic r);
    try (eexists; reflexivity).
  destruct Hmiss as [H|[H|H]]; discriminate H.
Qed.

Lemma minimal_lookup_fulfils (network : string -> Minimal.Reply) (npi : string) :
  ~ Rejects (network (registryUrl npi)) ->
  exists r, snd (Minimal.lookup network npi) = Js.Normal r /\ Minimal.npi r = npi.
Proof.
  unfold Minimal.lookup, Minimal.fetchPlain. intros Hrej.
  destruct (network (registryUrl npi)) as [|status payload].
  { exfalso. apply Hrej. constructor. }
  destruct payload as [| |[[|r rs]|]].
  - exfalso. apply Hrej. constructor.
  - exfalso. apply Hrej. constructor.
  - eexists. split; reflexivity.
  - unfold Eff.bind, HttpResponse.json, firstResult, Minimal.display, Minimal.defined.
    cbn [HttpResponse.payload Eff.ret Eff.throw lookup list_lookup].
    destruct (Raw.taxonomies r) eqn:Et;
      [|exfalso; apply Hrej; constructor; auto].
    destruct (Raw.addresses r) eqn:Ea;
      [|exfalso; apply Hrej; constructor; auto].
    destruct (Raw.basic r) eqn:Eb;
      [|exfalso; apply Hrej; constructor; auto].
    eexists. split; reflexivity.
  - eexists. split; reflexivity.
Qed.

Lemma minimal_calls_log (network : nat -> string -> Minimal.Reply)
    (pieces : list string) :
  concat (fst <$> imap (fun i npi => Minimal.lookup (network i) npi) pieces)
  = registryUrl <$> pieces.
Proof.
  rewrite fmap_imap.
  transitivity (concat (imap (fun (_ : nat) npi => [registryUrl npi]) pieces)).
  - f_equal. apply imap_ext. intros i npi _. apply minimal_lookup_log.
  - rewrite (concat_singletons (fun _ => registryUrl)).
    exact (imap_const registryUrl pieces).
Qed.

(** X11.  The minimal handler validates nothing: for a non-empty
    parameter one request goes out per comma-separated piece, for the
    trimmed piece as it is, so one more than there are commas and without
    an upper bound; and they are all out whatever has settled. *)
Theorem minimal_requests :
  forall (npiParam : string) (network : nat -> string -> Minimal.Reply)
         (order : list nat),
    npiParam <> "" ->
    let run := Minimal.handler (QString npiParam) network order in
    Minimal.outbound run = registryUrl <$> candidates npiParam
    /\ length (Minimal.outbound run) = S (occurrences "," npiParam).
Proof.
  intros npiParam network order Hne. cbv zeta.
  assert (Minimal.outbound (Minimal.handler (QString npiParam) network order)
          = registryUrl <$> candidates npiParam) as Hout.
  { unfold Minimal.handler.
    destruct (String.eqb_spec npiParam ""); [contradiction|].
    rewrite minimal_calls_log.
    destruct (PromiseAll.all _ order) as [[rs|e]|]; reflexivity. }
  split; [exact Hout|]. rewrite Hout. unfold candidates.
  rewrite !length_fmap. apply split_length.
Qed.

(** A parameter of three pieces, none of them an identifier, witnesses
    X11. *)
Lemma minimal_requests_witness :
  Minimal.outbound (Minimal.handler (QString "bad,, 12 ") (fun _ _ => Minimal.Unreachable) [])
  = [registryUrl "bad"; registryUrl ""; registryUrl "12"].
Proof.
  refine (proj1 (minimal_requests "bad,, 12 " (fun _ _ => Minimal.Unreachable) [] _)).
  discriminate.
Defined.

Section Rejection.

Context {A : Type}.
Variable promises : list (Js.Completion A).

Lemma rejection_kept (order : list nat) (st : PromiseAll.State) :
  is_Some (PromiseAll.rejection st) ->
  is_Some (PromiseAll.rejection (foldl (PromiseAll.settle promises) st order)).
Proof.
  revert st. induction order as [|j order IH]; intros st Hst; [exact Hst|].
  simpl. apply IH. unfold PromiseAll.settle.
  destruct (promises !! j) as [[v|e]|]; simpl; try exact Hst.
  destruct Hst as [e' ->]. eexists. reflexivity.
Qed.

Lemma rejection_seen (order : list nat) (st : PromiseAll.State) (i : nat)
    (e : Js.Error) :
  promises !! i = Some (Js.Throw e) -> i ∈ order ->
  is_Some (PromiseAll.rejection (foldl (PromiseAll.settle promises) st order)).
Proof.
  intros Hi. revert st. induction order as [|j order IH]; intros st Hin.
  - apply elem_of_nil in Hin. contradiction.
  - simpl. apply elem_of_cons in Hin as [<-|Hin].
    + apply rejection_kept. unfold PromiseAll.settle. rewrite Hi. simpl.
      destruct (PromiseAll.rejection st); eexists; reflexivity.
    + apply IH, Hin.
Qed.

(** As soon as one promise has rejected, the aggregate is rejected. *)
Lemma all_rejected (order : list nat) (i : nat) (e : Js.Error) :
  promises !! i = Some (Js.Throw e) -> i ∈ order ->
  exists e', PromiseAll.all promises order = Some (Js.Throw e').
Proof.
  intros Hi Hin. unfold PromiseAll.all.
  destruct (rejection_seen order (PromiseAll.init (length promises)) i e Hi Hin)
    as [e' ->].
  eexists. reflexivity.
Qed.

End Rejection.

(** X12.  The minimal handler has no error isolation: once a lookup that
    throws (no answer, a body that is not JSON or is null, a first result
    without basic data, taxonomies or addresses) has settled, the whole
    batch is answered 500 "Internal server error", without any record,
    whatever the other lookups return. *)
Theorem minimal_one_failure_fails_the_batch :
  forall (npiParam : string) (network : nat -> string -> Minimal.Reply)
         (order : list nat) (i : nat) (piece : string),
    npiParam <> "" ->
    candidates npiParam !! i = Some piece ->
    Rejects (network i (registryUrl piece)) ->
    i ∈ order ->
    Minimal.response (Minimal.handler (QString npiParam) network order)
    = Some (Minimal.mkResponse 500 None (Some "Internal server error")).
Proof.
  intros npiParam network order i piece Hne Hi Hrej Hin.
  unfold Minimal.handler.
  destruct (String.eqb_spec npiParam ""); [contradiction|].
  destruct (minimal_lookup_rejects (network i) piece Hrej) as [e He].
  destruct (all_rejected
              (snd <$> imap (fun i npi => Minimal.lookup (network i) npi)
                         (map Js.trim (Js.split "," npiParam)))
              order i e) as [e' ->]; [|assumption|reflexivity].
  rewrite list_lookup_fmap, list_lookup_imap.
  unfold candidates in Hi. change (map Js.trim) with (fmap (M := list) Js.trim).
  rewrite Hi. simpl. rewrite He. reflexivity.
Qed.

(** Two candidates, the second of which meets an unreachable registry,
    witness X12. *)
Lemma minimal_one_failure_fails_the_batch_witness :
  Minimal.response
    (Minimal.handler (QString "1306849806,1417005489")
       (fun i _ => match i with
                   | 0%nat => Minimal.Answered 200 (Envelope (Some [Sample.jane]))
                   | _ => Minimal.Unreachable
                   end) [1; 0]%nat)
  = Some (Minimal.mkResponse 500 None (Some "Internal server error")).
Proof.
  refine (minimal_one_failure_fails_the_batch "1306849806,1417005489" _ [1; 0]%nat
            1%nat "1417005489" _ eq_refl _ _).
  - discriminate.
  - apply rejects_unreachable.
  - apply list_elem_of_here.
Defined.

(** X13.  When no lookup throws and all have settled, the minimal handler
    answers 200 with one record per candidate, in the order of the
    candidates, each echoing its trimmed candidate as identifier,
    whatever the HTTP statuses of the registry's answers. *)
Theorem minimal_success :
  forall (npiParam : string) (network : nat -> string -> Minimal.Reply)
         (order : list nat),
    npiParam <> "" ->
    (forall i piece, candidates npiParam !! i = Some piece ->
                     ~ Rejects (network i (registryUrl piece))) ->
    AllSettled order (length (candidates npiParam)) ->
    exists records,
      Minimal.response (Minimal.handler (QString npiParam) network order)
      = Some (Minimal.mkResponse 200 (Some records) None)
      /\ Minimal.npi <$> records = candidates npiParam.
Proof.
  intros npiParam network order Hne Hok Hall.
  set (recordOf := fun (i : nat) (piece : string) =>
         match snd (Minimal.lookup (network i) piece) with
         | Js.Normal r => r
         | Js.Throw _ => Minimal.notFound piece
         end).
  exists (imap recordOf (candidates npiParam)). split.
  - unfold Minimal.handler.
    destruct (String.eqb_spec npiParam ""); [contradiction|].
    change (map Js.trim (Js.split "," npiParam)) with (candidates npiParam).
    assert (snd <$> imap (fun i npi => Minimal.lookup (network i) npi)
                      (candidates npiParam)
            = Js.Normal <$> imap recordOf (candidates npiParam)) as ->.
    { rewrite !fmap_imap. apply imap_ext. intros i piece Hi. simpl.
      unfold recordOf.
      destruct (minimal_lookup_fulfils (network i) piece (Hok i piece Hi))
        as (r & -> & _).
      reflexivity. }
    rewrite all_fulfilled; [reflexivity|].
    rewrite length_imap. apply AllSettled_covers, Hall.
  - apply list_eq. intros i. rewrite list_lookup_fmap, list_lookup_imap.
    destruct (candidates npiParam !! i) as [piece|] eqn:Hi; [|reflexivity].
    simpl. f_equal. unfold recordOf.
    destruct (minimal_lookup_fulfils (network i) piece (Hok i piece Hi))
      as (r & -> & Hnpi).
    exact Hnpi.
Qed.

(** A candidate that is no identifier, answered 404 with an empty result
    list, witnesses X13. *)
Lemma minimal_success_witness :
  exists records,
    Minimal.response
      (Minimal.handler (QString " bad ")
         (fun _ _ => Minimal.Answered 404 (Envelope (Some []))) [0]%nat)
    = Some (Minimal.mkResponse 200 (Some records) None)
    /\ Minimal.npi <$> records = ["bad"].
Proof.
  refine (minimal_success " bad "
            (fun _ _ => Minimal.Answered 404 (Envelope (Some []))) [0]%nat _ _ _).
  - discriminate.
  - intros i piece _ H. inversion H.
  - repeat constructor.
Defined.

(** X14.  A record without an address of purpose "LOCATION" is displayed
    by the minimal handler with the address ", ," and with "N/A" as phone
    and fax, whatever other addresses it has. *)
Theorem minimal_address_without_location :
  forall (npi : string) (r : Raw.t) (b : Basic.t)
         (taxonomies : list Taxonomy.t) (addresses : list Address.t),
    Raw.basic r = Some b -> Raw.taxonomies r = Some taxonomies ->
    Raw.addresses r = Some addresses ->
    Forall (fun a => ~ Purpose "LOCATION" a) addresses ->
    exists record,
      Minimal.display npi r = ([], Js.Normal record)
      /\ Minimal.address record = Some ", ,"
      /\ Minimal.phone record = Some "N/A"
      /\ Minimal.fax record = Some "N/A".
Proof.
  intros npi r b taxonomies addresses Hb Ht Ha Hnone.
  unfold Minimal.display. rewrite Hb, Ht, Ha.
  cbn [Minimal.defined Eff.bind Eff.ret app].
  assert (Js.find (hasPurpose "LOCATION") addresses = None) as ->.
  { rewrite (find_filter _ (Purpose "LOCATION")) by apply hasPurpose_spec.
    clear Ha. induction Hnone as [|a l Hna _ IH]; [reflexivity|].
    rewrite filter_cons_False by assumption. exact IH. }
  eexists. split; [reflexivity|]. repeat split.
Qed.

(** A provider with a mailing address only witnesses X14. *)
Lemma minimal_address_without_location_witness :
  exists record,
    Minimal.display "1306849806"
      (Raw.mk "NPI-1" (Some Sample.janeBasic) (Some []) (Some [Sample.mailing]))
    = ([], Js.Normal record)
    /\ Minimal.address record = Some ", ,"
    /\ Minimal.phone record = Some "N/A"
    /\ Minimal.fax record = Some "N/A".
Proof.
  refine (minimal_address_without_location "1306849806"
            (Raw.mk "NPI-1" (Some Sample.janeBasic) (Some []) (Some [Sample.mailing]))
            Sample.janeBasic [] [Sample.mailing] eq_refl eq_refl eq_refl _).
  constructor; [discriminate | constructor].
Defined.

(** X15.  A record without first and last name (as an organization has
    none) is named "undefined  undefined" by the minimal handler when
    prefix and middle name are absent too: the missing parts are printed
    as the text "undefined". *)
Theorem minimal_name_undefined :
  forall (npi : string) (r : Raw.t) (b : Basic.t)
         (taxonomies : list Taxonomy.t) (addresses : list Address.t),
    Raw.basic r = Some b -> Raw.taxonomies r = Some taxonomies ->
    Raw.addresses r = Some addresses ->
    Basic.first_name b = None -> Basic.last_name b = None ->
    absent (Basic.name_prefix b) -> absent (Basic.middle_name b) ->
    exists record,
      Minimal.display npi r = ([], Js.Normal record)
      /\ Minimal.name record = Some "undefined  undefined".
Proof.
  intros npi r b taxonomies addresses Hb Ht Ha Hf Hl Hp Hm.
  unfold Minimal.display. rewrite Hb, Ht, Ha.
  cbn [Minimal.defined Eff.bind Eff.ret app].
  eexists. split; [reflexivity|].
  cbn [Minimal.name]. rewrite Hf, Hl, !orStr_empty.
  assert (forall v, absent v -> textOf v = "") as Habs.
  { intros v [-> | ->]; reflexivity. }
  rewrite (Habs _ Hp), (Habs _ Hm). reflexivity.
Qed.

(** An organization record witnesses X15. *)
Lemma minimal_name_undefined_witness :
  exists record,
    Minimal.display "1234567890"
      (Raw.mk "NPI-2"
         (Some (Basic.mk None None None None (Some "Main Street Clinic") None None))
         (Some []) (Some []))
    = ([], Js.Normal record)
    /\ Minimal.name record = Some "undefined  undefined".
Proof.
  refine (minimal_name_undefined "1234567890"
            (Raw.mk "NPI-2"
               (Some (Basic.mk None None None None (Some "Main Street Clinic") None None))
               (Some []) (Some []))
            _ [] [] eq_refl eq_refl eq_refl eq_refl eq_refl _ _);
    left; reflexivity.
Defined.

(** * Properties of the lookup page *)

Lemma acceptable_FieldOk (value : string) :
  Page.acceptable value = true -> FieldOk value.
Proof.
  unfold Page.acceptable, FieldOk. intros H.
  apply orb_prop in H as [H|H].
  - apply String.eqb_eq in H. subst. split; [simpl; lia | reflexivity].
  - apply andb_prop in H as [Hd Hl]. apply Nat.leb_le in Hl.
    split; [exact Hl|]. destruct value; [reflexivity | exact Hd].
Qed.

Lemma validateInputs_inputs (st : Page.State) :
  Page.npiInputs (fst (Page.validateInputs st)) = Page.npiInputs st.
Proof.
  unfold Page.validateInputs.
  destruct (Page.validateFrom 0 (Page.npiInputs st) ∅ false). reflexivity.
Qed.

Lemma validateInputs_rest (st : Page.State) :
  Page.results (fst (Page.validateInputs st)) = Page.results st
  /\ Page.isLoading (fst (Page.validateInputs st)) = Page.isLoading st
  /\ Page.error (fst (Page.validateInputs st)) = Page.error st.
Proof.
  unfold Page.validateInputs.
  destruct (Page.validateFrom 0 (Page.npiInputs st) ∅ false). repeat split.
Qed.

Lemma submit_inputs (st : Page.State) :
  Page.npiInputs (fst (Page.submit st)) = Page.npiInputs st.
Proof.
  unfold Page.submit. pose proof (validateInputs_inputs st) as Hv.
  destruct (Page.validateInputs st) as [st1 valid]. simpl in Hv.
  destruct valid; simpl; [|exact Hv].
  destruct (length (List.filter Page.nonBlank (Page.npiInputs st)) =? 0)%nat;
    exact Hv.
Qed.

Lemma settle_inputs (reply : Page.Reply) (st : Page.State) :
  Page.npiInputs (Page.settle reply st) = Page.npiInputs st.
Proof.
  unfold Page.settle. destruct (Page.received reply) as [update|e] eqn:Er;
    [|reflexivity].
  unfold Page.received in Er.
  destruct reply as [|status body]; [discriminate Er|].
  destruct (negb _); [discriminate Er|].
  destruct body as [| |data]; try discriminate Er.
  destruct (Js.truthy (ApiResponse.error data)).
  - injection Er as <-. reflexivity.
  - destruct (ApiResponse.results data); injection Er as <-; reflexivity.
Qed.

Lemma step_invariant (e : Page.Event) (st st' : Page.State) :
  PageInv st -> Page.step e st = Some st' -> PageInv st'.
Proof.
  intros [Hne Hok] Hstep. destruct e as [|index|index value| |reply|]; simpl in Hstep.
  - injection Hstep as <-. split; simpl.
    + destruct (Page.npiInputs st); discriminate.
    + apply Forall_app. split; [exact Hok|].
      constructor; [|constructor]. split; [simpl; lia | reflexivity].
  - injection Hstep as <-. unfold Page.removeNpiField.
    destruct (Nat.ltb_spec 1 (length (Page.npiInputs st))) as [Hlen|Hlen];
      [|split; assumption].
    split; simpl.
    + intros Hnil. apply (f_equal length) in Hnil.
      destruct (decide (index < length (Page.npiInputs st))%nat) as [Hi|Hi].
      * rewrite length_delete in Hnil by (apply lookup_lt_is_Some_2, Hi).
        simpl in Hnil. lia.
      * rewrite delete_take_drop, drop_ge, take_ge, app_nil_r in Hnil by lia.
        simpl in Hnil. lia.
    + apply Forall_delete, Hok.
  - unfold Page.updateNpiValue in Hstep.
    destruct (Page.acceptable value) eqn:Ea.
    + case_decide as Hi; [|discriminate Hstep]. injection Hstep as <-.
      split; simpl.
      * intros Hnil. apply (f_equal length) in Hnil.
        rewrite length_insert in Hnil. simpl in Hnil. lia.
      * apply Forall_insert; [exact Hok | apply acceptable_FieldOk, Ea].
    + injection Hstep as <-. split; assumption.
  - injection Hstep as <-. unfold PageInv. rewrite submit_inputs. split; assumption.
  - injection Hstep as <-. unfold PageInv. rewrite settle_inputs. split; assumption.
  - injection Hstep as <-. split; simpl; [discriminate|].
    constructor; [|constructor]. split; [simpl; lia | reflexivity].
Qed.

Lemma run_invariant (events : list Page.Event) (st0 st : Page.State) :
  PageInv st0 -> Page.run events st0 = Some st -> PageInv st.
Proof.
  revert st0. induction events as [|e events IH]; intros st0 Hinv Hrun.
  - injection Hrun as <-. exact Hinv.
  - simpl in Hrun. destruct (Page.step e st0) as [st1|] eqn:Hstep;
      [|discriminate Hrun].
    eapply IH; [|exact Hrun]. eapply step_invariant; eassumption.
Qed.

Lemma initial_invariant : PageInv Page.initial.
Proof.
  split; [discriminate|]. constructor; [|constructor].
  split; [simpl; lia | reflexivity].
Qed.

(** X16.  Whatever the user does and whatever the server answers, the
    page keeps at least one input field, and every field holds at most
    ten characters, all of them digits. *)
Theorem page_fields_invariant :
  forall (events : list Page.Event) (st : Page.State),
    Page.run events Page.initial = Some st ->
    Page.npiInputs st <> []
    /\ Forall (fun v => (String.length v <= 10)%nat
                        /\ Forall (fun c => c ∈ decimalDigits) (list_ascii_of_string v))
         (Page.npiInputs st).
Proof.
  intros events st Hrun.
  destruct (run_invariant events Page.initial st initial_invariant Hrun) as [Hne Hok].
  split; [exact Hne|]. eapply Forall_impl; [exact Hok|].
  intros v [Hlen Hd]. split; [exact Hlen|].
  apply all_Forall in Hd. eapply Forall_impl; [exact Hd|].
  intros c Hc. apply isDigit_spec, Hc.
Qed.

(** A session that tries a letter, a long number and the removal of the
    only field witnesses X16. *)
Lemma page_fields_invariant_witness :
  Page.npiInputs
    (Page.mkState ["12345"] [] false "" ∅) <> [].
Proof.
  refine (proj1 (page_fields_invariant
                   [Page.Edit 0 "12345"; Page.Edit 0 "12345x";
                    Page.Edit 0 "12345678901"; Page.RemoveField 0]
                   (Page.mkState ["12345"] [] false "" ∅) _)).
  reflexivity.
Defined.

Lemma validateFrom_spec (inputs : list string) :
  forall (k : nat) (errs : gmap nat string) (has : bool),
    snd (Page.validateFrom k inputs errs has)
    = has || bool_decide (Exists Offending inputs)
    /\ forall i,
         fst (Page.validateFrom k inputs errs has) !! i
         = if decide (k <= i)%nat then
             match inputs !! (i - k)%nat with
             | Some v => if decide (Offending v)
                         then Some "NPI must be 10 digits" else errs !! i
             | None => errs !! i
             end
           else errs !! i.
Proof.
  induction inputs as [|v rest IH]; intros k errs has.
  - cbn [Page.validateFrom fst snd]. split.
    + rewrite bool_decide_eq_false_2, orb_false_r;
        [reflexivity | rewrite Exists_nil; tauto].
    + intros i. rewrite lookup_nil. case_decide; reflexivity.
  - assert (forall (errs' : gmap nat string) (has' : bool),
              errs' !! k = (if decide (Offending v)
                            then Some "NPI must be 10 digits" else errs !! k) ->
              (forall i, i <> k -> errs' !! i = errs !! i) ->
              has' = has || bool_decide (Offending v) ->
              snd (Page.validateFrom (S k) rest errs' has')
              = has || bool_decide (Exists Offending (v :: rest))
              /\ forall i,
                   fst (Page.validateFrom (S k) rest errs' has') !! i
                   = if decide (k <= i)%nat then
                       match (v :: rest) !! (i - k)%nat with
                       | Some v => if decide (Offending v)
                                   then Some "NPI must be 10 digits" else errs !! i
                       | None => errs !! i
                       end
                     else errs !! i) as Hcase.
    { intros errs' has' Hk Hother Hhas.
      destruct (IH (S k) errs' has') as [IHs IHl]. split.
      - rewrite IHs, Hhas, <- orb_assoc. f_equal.
        destruct (decide (Offending v)) as [Hv|Hv].
        + rewrite (bool_decide_eq_true_2 (Offending v)) by assumption.
          rewrite (bool_decide_eq_true_2 (Exists Offending (v :: rest)))
            by (apply Exists_cons_hd, Hv).
          reflexivity.
        + rewrite (bool_decide_eq_false_2 (Offending v)) by assumption.
          cbn [orb]. apply bool_decide_ext. rewrite Exists_cons. tauto.
      - intros i. rewrite IHl.
        destruct (decide (i = k)) as [->|Hik].
        + rewrite decide_False by lia. rewrite decide_True by lia.
          rewrite Nat.sub_diag. cbn [lookup list_lookup]. exact Hk.
        + destruct (decide (k <= i)%nat) as [Hle|Hle].
          * rewrite decide_True by lia.
            replace (i - k)%nat with (S (i - S k)) by lia.
            rewrite lookup_cons_ne_0 by lia. cbn [pred].
            rewrite (Hother i Hik). reflexivity.
          * rewrite decide_False by lia. apply Hother, Hik. }
    cbn [Page.validateFrom].
    destruct (String.eqb_spec (Js.trim v) "") as [Hblank|Hblank].
    + apply Hcase.
      * rewrite decide_False; [reflexivity | intros [H _]; contradiction].
      * reflexivity.
      * rewrite bool_decide_eq_false_2, orb_false_r;
          [reflexivity | intros [H _]; contradiction].
    + destruct (Nat.eqb_spec (String.length v) 10) as [Hlen|Hlen]; cbn [negb].
      * apply Hcase.
        -- rewrite decide_False; [reflexivity | intros [_ H]; contradiction].
        -- reflexivity.
        -- rewrite bool_decide_eq_false_2, orb_false_r;
             [reflexivity | intros [_ H]; contradiction].
      * apply Hcase.
        -- rewrite decide_True by (split; assumption). apply lookup_insert_eq.
        -- intros i Hi. apply lookup_insert_ne. congruence.
        -- rewrite bool_decide_eq_true_2 by (split; assumption).
           rewrite orb_true_r. reflexivity.
Qed.

(** X17.  [validateInputs] answers true exactly when no field is
    offending (not blank and not ten characters long); it marks each
    offending field, and no other, with "NPI must be 10 digits",
    discarding the marks there were, and changes nothing else. *)
Theorem validateInputs_marks_offending_fields :
  forall st : Page.State,
    let st' := fst (Page.validateInputs st) in
    (snd (Page.validateInputs st) = true
     <-> Forall (fun v => ~ Offending v) (Page.npiInputs st))
    /\ (forall i,
          Page.inputErrors st' !! i
          = match Page.npiInputs st !! i with
            | Some v => if decide (Offending v)
                        then Some "NPI must be 10 digits" else None
            | None => None
            end)
    /\ Page.npiInputs st' = Page.npiInputs st
    /\ Page.results st' = Page.results st
    /\ Page.isLoading st' = Page.isLoading st
    /\ Page.error st' = Page.error st.
Proof.
  intros st. cbv zeta. unfold Page.validateInputs.
  destruct (validateFrom_spec (Page.npiInputs st) 0 ∅ false) as [Hhas Herrs].
  destruct (Page.validateFrom 0 (Page.npiInputs st) ∅ false) as [newErrors hasErrors].
  cbn [fst snd Page.inputErrors orb] in *. split; [|split; [|repeat split]].
  - rewrite Hhas, negb_true_iff, bool_decide_eq_false.
    split.
    + intros H. apply not_Exists_Forall; [intros v; apply _ | exact H].
    + intros H HE. eapply Forall_not_Exists; eassumption.
  - intros i. rewrite Herrs, decide_True by lia. rewrite Nat.sub_0_r.
    destruct (Page.npiInputs st !! i) as [v|]; [|apply lookup_empty].
    case_decide; [reflexivity | apply lookup_empty].
Qed.

Lemma validateFrom_clean (inputs : list string) :
  forall (k : nat) (errs : gmap nat string) (has : bool),
    Forall (fun v => ~ Offending v) inputs ->
    Page.validateFrom k inputs errs has = (errs, has).
Proof.
  induction inputs as [|v rest IH]; intros k errs has Hok; [reflexivity|].
  apply Forall_cons in Hok as [Hv Hrest]. cbn [Page.validateFrom].
  destruct (String.eqb_spec (Js.trim v) "") as [Hblank|Hblank];
    [apply IH, Hrest|].
  destruct (Nat.eqb_spec (String.length v) 10) as [Hlen|Hlen]; cbn [negb];
    [apply IH, Hrest|].
  exfalso. apply Hv. split; assumption.
Qed.

Lemma nonBlank_submitted (st : Page.State) :
  List.filter Page.nonBlank (Page.npiInputs st) = submitted st.
Proof.
  unfold submitted. apply filter_bool_decide. intros v. unfold Page.nonBlank.
  destruct (String.eqb_spec (Js.trim v) ""); simpl; split; congruence.
Qed.

(** [handleSubmit] up to the request, by cases. *)
Lemma submit_spec (st : Page.State) :
  Page.submit st
  = if decide (Exists Offending (Page.npiInputs st)) then
      (fst (Page.validateInputs st), None)
    else if decide (submitted st = []) then
      (Page.mkState (Page.npiInputs st) (Page.results st) (Page.isLoading st)
         "Please enter at least one NPI number" ∅, None)
    else
      (Page.mkState (Page.npiInputs st) (Page.results st) true "" ∅,
       Some ("/api/fetchNpi?npi="
             +:+ Page.encodeURIComponent (Js.join "," (submitted st)))).
Proof.
  unfold Page.submit. rewrite nonBlank_submitted.
  destruct (decide (Exists Offending (Page.npiInputs st))) as [Hbad|Hgood].
  - unfold Page.validateInputs.
    destruct (validateFrom_spec (Page.npiInputs st) 0 ∅ false) as [Hhas _].
    destruct (Page.validateFrom 0 (Page.npiInputs st) ∅ false) as [errs has].
    cbn [snd orb] in Hhas. rewrite bool_decide_eq_true_2 in Hhas by assumption.
    subst has. reflexivity.
  - unfold Page.validateInputs. rewrite validateFrom_clean
      by (apply not_Exists_Forall; [intros v; apply _ | exact Hgood]).
    cbn [negb]. destruct (submitted st) as [|v l]; reflexivity.
Qed.

(** X18.  [handleSubmit] sends a request only when no field is offending
    and some field is not blank; the request then carries the non-blank
    fields, joined by commas and URL-encoded, and the page is loading
    with its error text cleared.  Otherwise nothing is sent and the page
    is not put into the loading state; if all fields are blank the error
    reads "Please enter at least one NPI number".  The results shown are
    untouched in every case. *)
Theorem submit_request :
  forall st : Page.State,
    let sent := snd (Page.submit st) in
    let st' := fst (Page.submit st) in
    sent = (if decide (Exists Offending (Page.npiInputs st) \/ submitted st = [])
            then None
            else Some ("/api/fetchNpi?npi="
                       +:+ Page.encodeURIComponent (Js.join "," (submitted st))))
    /\ Page.isLoading st' = match sent with
                            | Some _ => true
                            | None => Page.isLoading st
                            end
    /\ Page.error st' = (if decide (Exists Offending (Page.npiInputs st))
                         then Page.error st
                         else if decide (submitted st = [])
                              then "Please enter at least one NPI number" else "")
    /\ Page.results st' = Page.results st.
Proof.
  intros st. cbv zeta. rewrite submit_spec.
  destruct (validateInputs_rest st) as (Hres & Hload & Herr).
  destruct (decide (Exists Offending (Page.npiInputs st))) as [Hbad|Hgood].
  - rewrite decide_True by (left; assumption). cbn [fst snd].
    repeat split; assumption.
  - destruct (decide (submitted st = [])) as [Hnone|Hsome].
    + rewrite decide_True by (right; assumption). repeat split.
    + rewrite decide_False by tauto. repeat split.
Qed.

Lemma append_assoc (a b c : string) : (a +:+ b) +:+ c = a +:+ (b +:+ c).
Proof.
  induction a as [|x a IH]; [reflexivity|]. rewrite !append_cons, IH. reflexivity.
Qed.

Lemma encode_app (a b : string) :
  Page.encodeURIComponent (a +:+ b)
  = Page.encodeURIComponent a +:+ Page.encodeURIComponent b.
Proof.
  induction a as [|c a IH]; [reflexivity|].
  rewrite append_cons. cbn [Page.encodeURIComponent]. rewrite IH.
  symmetry. apply append_assoc.
Qed.

Lemma encode_digits (v : string) :
  Js.all Js.isDigit v = true -> Page.encodeURIComponent v = v.
Proof.
  induction v as [|c v IH]; [reflexivity|]. simpl. intros H.
  apply andb_prop in H as [Hc Hv]. unfold Page.unreserved.
  rewrite Hc, orb_true_r, (IH Hv). reflexivity.
Qed.

(** The encoded parameter of a list of digit strings. *)
Lemma encode_join (l : list string) :
  Forall (fun v => Js.all Js.isDigit v = true) l ->
  Page.encodeURIComponent (Js.join "," l) = Js.join "%2C" l.
Proof.
  induction 1 as [|v l Hv Hl IH]; [reflexivity|].
  destruct l as [|w l]; [apply encode_digits, Hv|].
  change (Js.join "," (v :: w :: l)) with (v +:+ "," +:+ Js.join "," (w :: l)).
  change (Js.join "%2C" (v :: w :: l)) with (v +:+ "%2C" +:+ Js.join "%2C" (w :: l)).
  rewrite !encode_app, IH, (encode_digits v Hv). reflexivity.
Qed.

Lemma submitted_ten_digits (st : Page.State) :
  PageInv st -> ~ Exists Offending (Page.npiInputs st) ->
  Forall TenDigits (submitted st).
Proof.
  intros [_ Hok] Hgood. apply Forall_forall. intros v Hv.
  unfold submitted in Hv. apply list_elem_of_filter in Hv as [Hblank Hin].
  rewrite Forall_forall in Hok. destruct (Hok v Hin) as [_ Hd].
  apply isValidNpi_spec. unfold isValidNpi.
  assert (String.length v = 10%nat) as Hlen.
  { destruct (decide (String.length v = 10%nat)) as [H|H]; [exact H|].
    exfalso. apply Hgood. apply Exists_exists. exists v.
    split; [exact Hin | split; assumption]. }
  rewrite Hlen. destruct v; [discriminate Hlen | exact Hd].
Qed.

(** X19.  What the page submits, the handler accepts.  In every state
    the page can reach, if [handleSubmit] sends a request then the fields
    it sends are identifiers of ten digits; the request is
    "/api/fetchNpi?npi=" followed by them joined with "%2C"; and the
    handler's validation of the comma-joined parameter keeps all of them
    in order, up to the tenth, so it finds at least one valid identifier. *)
Theorem page_parameter_is_accepted :
  forall (events : list Page.Event) (st : Page.State) (url : string),
    Page.run events Page.initial = Some st ->
    snd (Page.submit st) = Some url ->
    Forall TenDigits (submitted st)
    /\ url = "/api/fetchNpi?npi=" +:+ Js.join "%2C" (submitted st)
    /\ npiList (Js.join "," (submitted st)) = take 10 (submitted st)
    /\ npiList (Js.join "," (submitted st)) <> [].
Proof.
  intros events st url Hrun Hsent.
  pose proof (run_invariant events Page.initial st initial_invariant Hrun) as Hinv.
  rewrite submit_spec in Hsent.
  destruct (decide (Exists Offending (Page.npiInputs st))) as [Hbad|Hgood];
    [discriminate Hsent|].
  destruct (decide (submitted st = [])) as [Hnone|Hsome]; [discriminate Hsent|].
  injection Hsent as <-.
  pose proof (submitted_ten_digits st Hinv Hgood) as Hten.
  assert (npiList (Js.join "," (submitted st)) = take 10 (submitted st)) as Hlist.
  { unfold npiList, MAX_NPIS. f_equal. apply join_validates; assumption. }
  split; [exact Hten|]. split; [|split; [exact Hlist|]].
  - f_equal. apply encode_join. eapply Forall_impl; [exact Hten|].
    intros v. apply TenDigits_digits.
  - rewrite Hlist. destruct (submitted st); [contradiction | discriminate].
Qed.

(** Two identifiers typed into two fields, with a blank field between
    them, witness X19. *)
Lemma page_parameter_is_accepted_witness :
  snd (Page.submit (Page.mkState ["1417005489"; ""; "1306849806"] [] false "" ∅))
  = Some "/api/fetchNpi?npi=1417005489%2C1306849806"
  /\ npiList (Js.join "," ["1417005489"; "1306849806"])
     = ["1417005489"; "1306849806"].
Proof.
  split; [reflexivity|].
  exact (proj1 (proj2 (proj2
           (page_parameter_is_accepted
              [Page.AddField; Page.AddField; Page.Edit 0 "1417005489";
               Page.Edit 2 "1306849806"]
              (Page.mkState ["1417005489"; ""; "1306849806"] [] false "" ∅)
              "/api/fetchNpi?npi=1417005489%2C1306849806" eq_refl eq_refl)))).
Defined.

(** X20.  What the handler answers, the page shows: after a 200 the page
    shows the handler's records, in order, and keeps its error text; after
    any other answer of the handler it shows no results and the fixed
    text "Failed to fetch NPI data. Please try again.", never the
    handler's own message.  In both cases it stops loading, and the fields
    and their marks are untouched. *)
Theorem page_shows_handler_answer :
  forall (Date_parse : string -> option Z) (formatLong : Z -> string)
         (req : Request.t) (network : nat -> string -> FetchOutcome)
         (order : list nat) (reply : Page.Reply) (st : Page.State),
    let run := handler Date_parse formatLong req network order in
    Page.replyOf run = Some reply ->
    Page.settle reply st
    = if decide (statusOf run = Some 200%nat) then
        Page.mkState (Page.npiInputs st) (recordsOf run) false (Page.error st)
          (Page.inputErrors st)
      else
        Page.mkState (Page.npiInputs st) [] false
          "Failed to fetch NPI data. Please try again." (Page.inputErrors st).
Proof.
  intros Date_parse formatLong req network order reply st. cbv zeta.
  unfold Page.replyOf, statusOf.
  destruct (Run.response (handler Date_parse formatLong req network order))
    as [resp|] eqn:Hresp; [|discriminate].
  intros [= <-].
  destruct (handler_response _ _ _ _ _ _ Hresp)
    as [(rs & Hne & -> & Hrec)|(status & msg & Hst & Hmsg & ->)].
  - rewrite Hrec. rewrite decide_True by reflexivity. reflexivity.
  - rewrite decide_False by (destruct Hst as [-> | ->]; discriminate).
    destruct Hst as [-> | ->]; reflexivity.
Qed.

(** A request that the handler refuses with its message "No valid NPI
    numbers provided" witnesses X20. *)
Lemma page_shows_handler_answer_witness :
  Page.error
    (Page.settle
       (Page.Answered 400
          (Page.Object (ApiResponse.failure "No valid NPI numbers provided")))
       Page.initial)
  = "Failed to fetch NPI data. Please try again.".
Proof.
  exact (f_equal Page.error
           (page_shows_handler_answer UtcEngine.Date_parse UtcEngine.formatLong
              (Sample.get "bad") Sample.network [] _ Page.initial eq_refl)).
Defined.

(** X21.  After any reply, well formed or not, the page has stopped
    loading and its fields and marks are as before; either it shows no
    results together with a non-empty error text, or it shows the list the
    server sent and keeps the error text it had. *)
Theorem page_after_reply :
  forall (reply : Page.Reply) (st : Page.State),
    let st' := Page.settle reply st in
    Page.isLoading st' = false
    /\ Page.npiInputs st' = Page.npiInputs st
    /\ Page.inputErrors st' = Page.inputErrors st
    /\ ((Page.results st' = [] /\ Page.error st' <> "")
        \/ (Page.error st' = Page.error st
            /\ exists status data,
                 reply = Page.Answered status (Page.Object data)
                 /\ ApiResponse.results data = Some (Page.results st'))).
Proof.
  intros reply st. cbv zeta. unfold Page.settle, Page.received.
  destruct reply as [|status body].
  { repeat split. left. split; [reflexivity | discriminate]. }
  destruct (negb _).
  { repeat split. left. split; [reflexivity | discriminate]. }
  destruct body as [| |data].
  - repeat split. left. split; [reflexivity | discriminate].
  - repeat split. left. split; [reflexivity | discriminate].
  - destruct (Js.truthy (ApiResponse.error data)) eqn:Et.
    + repeat split. left. split; [reflexivity|]. simpl.
      destruct (ApiResponse.error data) as [e|]; [|discriminate Et].
      simpl in *. destruct (String.eqb_spec e ""); [discriminate Et | assumption].
    + destruct (ApiResponse.results data) as [rs|] eqn:Er.
      * repeat split. right. split; [reflexivity|].
        exists status, data. split; [reflexivity | exact Er].
      * repeat split. left. split; [reflexivity | discriminate].
Qed.

(** X22.  Removing a field (when there is more than one) moves the later
    fields down by one position but leaves their marks where they were:
    at a position from the removed one on, the page then shows the next
    field's content, with the mark recorded for the old occupant of the
    position, and with no mark at the removed position itself. *)
Theorem remove_field_keeps_marks_in_place :
  forall (st : Page.State) (index j : nat),
    (1 < length (Page.npiInputs st))%nat ->
    (index <= j)%nat ->
    let st' := Page.removeNpiField index st in
    Page.npiInputs st' !! j = Page.npiInputs st !! S j
    /\ Page.inputErrors st' !! j
       = (if decide (j = index) then None else Page.inputErrors st !! j).
Proof.
  intros st index j Hlen Hij. cbv zeta. unfold Page.removeNpiField.
  destruct (Nat.ltb_spec 1 (length (Page.npiInputs st))) as [_|Hle]; [|lia].
  cbn [Page.npiInputs Page.inputErrors]. split.
  - apply list_lookup_delete_ge, Hij.
  - case_decide as Hj.
    + subst j. apply lookup_delete_eq.
    + apply lookup_delete_ne. congruence.
Qed.

(** Three fields of which the middle one is marked: removing the first
    leaves the mark at position 1, now on the third field.  This
    witnesses X22. *)
Lemma remove_field_keeps_marks_in_place_witness :
  let st := Page.mkState ["1417005489"; "123"; "1306849806"] [] false ""
              {[ 1%nat := "NPI must be 10 digits" ]} in
  Page.npiInputs (Page.removeNpiField 0 st) !! 1%nat = Some "1306849806"
  /\ Page.inputErrors (Page.removeNpiField 0 st) !! 1%nat
     = Some "NPI must be 10 digits".
Proof.
  cbv zeta.
  refine (remove_field_keeps_marks_in_place
            (Page.mkState ["1417005489"; "123"; "1306849806"] [] false ""
               {[ 1%nat := "NPI must be 10 digits" ]}) 0 1 _ _).
  - simpl. lia.
  - lia.
Defined.

(** A page with one blank field, one short field and one full field
    witnesses X17: validation fails and marks the short field only. *)
Lemma validateInputs_marks_offending_fields_witness :
  ~ Forall (fun v => ~ Offending v) [""; "123"; "1306849806"]
  /\ snd (Page.validateInputs
            (Page.mkState [""; "123"; "1306849806"] [] false "" ∅)) = false.
Proof.
  assert (~ Forall (fun v => ~ Offending v) [""; "123"; "1306849806"]) as Hbad.
  { intros H. apply Forall_cons in H as [_ H]. apply Forall_cons in H as [H _].
    apply H. split; discriminate. }
  split; [exact Hbad|].
  destruct (snd (Page.validateInputs
                   (Page.mkState [""; "123"; "1306849806"] [] false "" ∅)))
    eqn:E; [|reflexivity].
  exfalso. apply Hbad.
  exact (proj1 (proj1 (validateInputs_marks_offending_fields
                         (Page.mkState [""; "123"; "1306849806"] [] false "" ∅))) E).
Defined.
